(** * PaymentService: the payment-intent store of [PaymentService/main.py]

    A shallow embedding of the three request handlers
    ([create_payment_intent], [get_payment], [payment_webhook]) together
    with the module-level dictionary [PAYMENT_STORE] they share.

    The handlers are written once, as programs over the atomic actions
    the Python code performs on shared state (dictionary reads and
    writes, clock reads, UUID draws).  Two interpretations are given:
    [run] executes one handler from start to end, and [exec] executes a
    pool of handlers under an explicit schedule, one action at a time. *)

From Stdlib Require Import Floats.PrimFloat.
From Stdlib Require Import ZArith NArith Lia Ascii String.
From stdpp Require Import gmap strings list.

Local Open Scope string_scope.

(** ** Values *)

(** [datetime.now(timezone.utc)]: an aware datetime, counted in
    microseconds since the epoch. *)
Definition datetime : Type := Z.

(** [uuid.UUID]: the 128-bit integer held in its [int] attribute. *)
Definition UUID : Type := N.

(** A reference to a Python [dict] object holding an intent. *)
Abbreviation loc := nat (only parsing).

Definition hex_digit (d : N) : ascii :=
  match d with
  | 0 => "0" | 1 => "1" | 2 => "2" | 3 => "3" | 4 => "4" | 5 => "5"
  | 6 => "6" | 7 => "7" | 8 => "8" | 9 => "9" | 10 => "a" | 11 => "b"
  | 12 => "c" | 13 => "d" | 14 => "e" | _ => "f"
  end%N%char.

(** ['%0wx' % x] for [x < 16 ^ w]: the [w] low hexadecimal digits of [x],
    most significant first, written in front of [acc]. *)
Fixpoint hex_fixed (w : nat) (x : N) (acc : string) : string :=
  match w with
  | O => acc
  | S w' => hex_fixed w' (x / 16)%N (String (hex_digit (x mod 16)%N) acc)
  end.

(** [UUID.hex]: ['%032x' % self.int]. *)
Definition UUID_hex (u : UUID) : string := hex_fixed 32 u "".

(** [str(UUID)]: the hex digits in groups of 8-4-4-4-12. *)
Definition UUID_str (u : UUID) : string :=
  let hex := UUID_hex u in
  substring 0 8 hex +:+ "-" +:+ substring 8 4 hex +:+ "-" +:+
  substring 12 4 hex +:+ "-" +:+ substring 16 4 hex +:+ "-" +:+
  substring 20 12 hex.

(** [class PaymentMethod(str)]. *)
Inductive PaymentMethod : Type := CARD | WALLET | UPI | COD.

(** [class PaymentStatus(str)]: the seven status constants. *)
Inductive PaymentStatus : Type :=
| REQUIRES_PAYMENT_METHOD
| REQUIRES_CONFIRMATION
| PROCESSING
| SUCCEEDED
| FAILED
| CANCELLED
| REFUNDED.

(** The string each constant is bound to. *)
Definition PaymentStatus_value (s : PaymentStatus) : string :=
  match s with
  | REQUIRES_PAYMENT_METHOD => "requires_payment_method"
  | REQUIRES_CONFIRMATION => "requires_confirmation"
  | PROCESSING => "processing"
  | SUCCEEDED => "succeeded"
  | FAILED => "failed"
  | CANCELLED => "cancelled"
  | REFUNDED => "refunded"
  end.

(** A JSON value, for the free-form [metadata] of a webhook event. *)
#[local] Set Warnings "-register-all".
Inductive json : Type :=
| JNull
| JBool (b : bool)
| JNumber (x : float)
| JString (s : string)
| JArray (xs : list json)
| JObject (fields : list (string * json)).
#[local] Set Warnings "register-all".

(** A field of a request body: left out, sent as [null], or sent with a
    value. *)
Inductive body_field (A : Type) : Type :=
| Absent
| Null
| Given (a : A).
Arguments Absent {A}.
Arguments Null {A}.
Arguments Given {A} a.

(** ** Request and response models *)

Module CreatePaymentIntentRequest.
Record t : Type := mk {
  orderId : string;
  method : PaymentMethod;
  amount : option float;
  currency : option string
}.

(** The body as received, before the model is built. *)
Record body : Type := mk_body {
  body_orderId : string;
  body_method : string;
  body_amount : body_field float;
  body_currency : body_field string
}.

(** [Literal["card", "wallet", "upi", "cod"]]. *)
Definition method_of_string (s : string) : option PaymentMethod :=
  if String.eqb s "card" then Some CARD
  else if String.eqb s "wallet" then Some WALLET
  else if String.eqb s "upi" then Some UPI
  else if String.eqb s "cod" then Some COD
  else None.

(** Building the model: [amount] defaults to [None] and [currency] to
    ["INR"] when the field is left out; an explicit [null] stays
    [None]. *)
Definition validate (b : body) : option t :=
  match method_of_string (body_method b) with
  | None => None
  | Some m =>
      Some {| orderId := body_orderId b;
              method := m;
              amount := match body_amount b with
                        | Absent => None
                        | Null => None
                        | Given a => Some a
                        end;
              currency := match body_currency b with
                          | Absent => Some "INR"
                          | Null => None
                          | Given c => Some c
                          end |}
  end.
End CreatePaymentIntentRequest.

Module PaymentIntent.
Record t : Type := mk {
  id : string;
  orderId : string;
  amount : float;
  currency : string;
  status : PaymentStatus;
  provider : option string;
  clientSecret : option string;
  createdAt : datetime;
  updatedAt : datetime
}.
End PaymentIntent.

Module WebhookEvent.
Record t : Type := mk {
  type : string;
  paymentId : string;
  orderId : option string;
  metadata : option (list (string * json))
}.

(** The five event names of the [Literal] on [type]. *)
Definition type_literals : list string :=
  [ "payment_intent.succeeded";
    "payment_intent.failed";
    "payment_intent.processing";
    "payment_intent.canceled";
    "payment_intent.refunded" ].

Record body : Type := mk_body {
  body_type : string;
  body_paymentId : string;
  body_orderId : body_field string;
  body_metadata : body_field (list (string * json))
}.

Definition optional {A} (f : body_field A) : option A :=
  match f with
  | Absent => None
  | Null => None
  | Given a => Some a
  end.

(** Building the model: [type] must be one of the five literals. *)
Definition validate (b : body) : option t :=
  if existsb (String.eqb (body_type b)) type_literals
  then Some {| type := body_type b;
               paymentId := body_paymentId b;
               orderId := optional (body_orderId b);
               metadata := optional (body_metadata b) |}
  else None.
End WebhookEvent.

(** The dictionary built at [record = {...}] and kept in the store. *)
Module IntentRecord.
Record t : Type := mk {
  id : string;
  orderId : string;
  amount : float;
  currency : string;
  status : PaymentStatus;
  provider : string;
  clientSecret : string;
  createdAt : datetime;
  updatedAt : datetime
}.

(** [record["status"] = s]. *)
Definition set_status (s : PaymentStatus) (r : t) : t :=
  {| id := id r; orderId := orderId r; amount := amount r;
     currency := currency r; status := s; provider := provider r;
     clientSecret := clientSecret r; createdAt := createdAt r;
     updatedAt := updatedAt r |}.

(** [record["updatedAt"] = d]. *)
Definition set_updatedAt (d : datetime) (r : t) : t :=
  {| id := id r; orderId := orderId r; amount := amount r;
     currency := currency r; status := status r; provider := provider r;
     clientSecret := clientSecret r; createdAt := createdAt r;
     updatedAt := d |}.
End IntentRecord.

(** [PaymentIntent] built from [record]: a copy of the dictionary's nine
    entries. *)
Definition PaymentIntent_of (r : IntentRecord.t) : PaymentIntent.t :=
  {| PaymentIntent.id := IntentRecord.id r;
     PaymentIntent.orderId := IntentRecord.orderId r;
     PaymentIntent.amount := IntentRecord.amount r;
     PaymentIntent.currency := IntentRecord.currency r;
     PaymentIntent.status := IntentRecord.status r;
     PaymentIntent.provider := Some (IntentRecord.provider r);
     PaymentIntent.clientSecret := Some (IntentRecord.clientSecret r);
     PaymentIntent.createdAt := IntentRecord.createdAt r;
     PaymentIntent.updatedAt := IntentRecord.updatedAt r |}.

Record HTTPException : Type := mkHTTPException {
  status_code : nat;
  detail : string
}.

(** ** Handlers as programs over atomic actions *)

(** What a handler call ends in. [Dangling] stands for a read through a
    reference to no object; Python has no such reference, and
    [run_handle_not_dangling] shows the handlers never meet one. *)
Inductive Outcome (A : Type) : Type :=
| Returned (a : A)
| Raised (e : HTTPException)
| Dangling.
Arguments Returned {A} a.
Arguments Raised {A} e.
Arguments Dangling {A}.

(** A handler, as the sequence of actions it performs on what the calls
    share: the UUID generator, the clock, the record dictionaries and
    [PAYMENT_STORE].  Each constructor but [Ret] and [Raise] is one such
    action, taken as a whole (a dictionary read or write of the
    interpreter is not interrupted), followed by the rest of the handler;
    what a handler computes on its own locals in between is part of the
    continuation. *)
Inductive Prog (A : Type) : Type :=
| Ret (a : A)
| Raise (e : HTTPException)
| Uuid4 (k : UUID -> Prog A)
    (* uuid.uuid4() *)
| Now (k : datetime -> Prog A)
    (* datetime.now(timezone.utc) *)
| NewDict (r : IntentRecord.t) (k : loc -> Prog A)
    (* record = {...} *)
| SetStatus (l : loc) (s : PaymentStatus) (k : Prog A)
    (* record["status"] = s *)
| SetUpdatedAt (l : loc) (d : datetime) (k : Prog A)
    (* record["updatedAt"] = d *)
| ReadDict (l : loc) (k : IntentRecord.t -> Prog A)
    (* the entries of record, read to build the returned PaymentIntent *)
| StoreGet (key : string) (k : option loc -> Prog A)
    (* PAYMENT_STORE.get(key) *)
| StoreSet (key : string) (l : loc) (k : Prog A).
    (* PAYMENT_STORE[key] = record *)
Arguments Ret {A} a.
Arguments Raise {A} e.
Arguments Uuid4 {A} k.
Arguments Now {A} k.
Arguments NewDict {A} r k.
Arguments SetStatus {A} l s k.
Arguments SetUpdatedAt {A} l d k.
Arguments ReadDict {A} l k.
Arguments StoreGet {A} key k.
Arguments StoreSet {A} key l k.

Fixpoint Prog_bind {A B} (f : A -> Prog B) (p : Prog A) : Prog B :=
  match p with
  | Ret a => f a
  | Raise e => Raise e
  | Uuid4 k => Uuid4 (fun u => Prog_bind f (k u))
  | Now k => Now (fun d => Prog_bind f (k d))
  | NewDict r k => NewDict r (fun l => Prog_bind f (k l))
  | SetStatus l s k => SetStatus l s (Prog_bind f k)
  | SetUpdatedAt l d k => SetUpdatedAt l d (Prog_bind f k)
  | ReadDict l k => ReadDict l (fun r => Prog_bind f (k r))
  | StoreGet key k => StoreGet key (fun o => Prog_bind f (k o))
  | StoreSet key l k => StoreSet key l (Prog_bind f k)
  end.

#[global] Instance Prog_mret : MRet Prog := fun _ a => Ret a.
#[global] Instance Prog_mbind : MBind Prog := fun _ _ f p => Prog_bind f p.

Definition uuid4 : Prog UUID := Uuid4 Ret.
Definition new_dict (r : IntentRecord.t) : Prog loc := NewDict r Ret.
Definition set_status (l : loc) (s : PaymentStatus) : Prog unit :=
  SetStatus l s (Ret tt).
Definition set_updatedAt (l : loc) (d : datetime) : Prog unit :=
  SetUpdatedAt l d (Ret tt).
Definition read_dict (l : loc) : Prog IntentRecord.t := ReadDict l Ret.
Definition store_get (key : string) : Prog (option loc) := StoreGet key Ret.
Definition store_set (key : string) (l : loc) : Prog unit :=
  StoreSet key l (Ret tt).

(** [_now()]. *)
Definition _now : Prog datetime := Now Ret.

(** [_default_amount()]. *)
Definition _default_amount : float := 100%float.

(** [x or "INR"] on an optional string: [None] and [""] are falsy. *)
Definition or_default (x : option string) (d : string) : string :=
  match x with
  | None => d
  | Some "" => d
  | Some s => s
  end.

(** The dictionary literal [status_map], lines 183-189. *)
Definition status_map : list (string * PaymentStatus) :=
  [ ("payment_intent.succeeded", SUCCEEDED);
    ("payment_intent.failed", FAILED);
    ("payment_intent.processing", PROCESSING);
    ("payment_intent.canceled", CANCELLED);
    ("payment_intent.refunded", REFUNDED) ].

(** [d.get(key)] on a dictionary literal. *)
Fixpoint dict_get {V} (d : list (string * V)) (key : string) : option V :=
  match d with
  | [] => None
  | (k, v) :: d' => if String.eqb k key then Some v else dict_get d' key
  end.

(** [not new_status]: true of [None] and of an empty string. *)
Definition falsy_status (s : option PaymentStatus) : bool :=
  match s with
  | None => true
  | Some s => String.eqb (PaymentStatus_value s) ""
  end.

(** Lines 113-141. [float(amount)] is the identity on a float. *)
Definition create_payment_intent
    (payload : CreatePaymentIntentRequest.t) : Prog PaymentIntent.t :=
  u ← uuid4;
  let intent_id := UUID_str u in
  created_at ← _now;
  let amount := match CreatePaymentIntentRequest.amount payload with
                | Some a => a
                | None => _default_amount
                end in
  let currency :=
    or_default (CreatePaymentIntentRequest.currency payload) "INR" in
  let provider := "mockpay" in
  u' ← uuid4;
  let client_secret :=
    "pi_" +:+ intent_id +:+ "_secret_" +:+ substring 0 16 (UUID_hex u') in
  record ← new_dict
    {| IntentRecord.id := intent_id;
       IntentRecord.orderId := CreatePaymentIntentRequest.orderId payload;
       IntentRecord.amount := amount;
       IntentRecord.currency := currency;
       IntentRecord.status := REQUIRES_CONFIRMATION;
       IntentRecord.provider := provider;
       IntentRecord.clientSecret := client_secret;
       IntentRecord.createdAt := created_at;
       IntentRecord.updatedAt := created_at |};
  _ ← store_set intent_id record;
  r ← read_dict record;
  mret (PaymentIntent_of r).

(** Lines 151-161. A record dictionary has nine entries, so
    [not record] holds of [None] only. *)
Definition get_payment (paymentId : string) : Prog PaymentIntent.t :=
  record ← store_get paymentId;
  match record with
  | None => Raise (mkHTTPException 404 "Payment not found")
  | Some record =>
      r ← read_dict record;
      mret (PaymentIntent_of r)
  end.

(** Lines 170-201. In the branch where [new_status] is truthy it is not
    [None]; the inner [None] case is there for the match to be total. *)
Definition payment_webhook (event : WebhookEvent.t) : Prog PaymentIntent.t :=
  record ← store_get (WebhookEvent.paymentId event);
  match record with
  | None => Raise (mkHTTPException 404 "Payment not found")
  | Some record =>
      let new_status := dict_get status_map (WebhookEvent.type event) in
      if falsy_status new_status
      then Raise (mkHTTPException 400 "Unsupported event type")
      else
        match new_status with
        | None => Raise (mkHTTPException 400 "Unsupported event type")
        | Some new_status =>
            _ ← set_status record new_status;
            d ← _now;
            _ ← set_updatedAt record d;
            _ ← store_set (WebhookEvent.paymentId event) record;
            r ← read_dict record;
            mret (PaymentIntent_of r)
        end
  end.

(** ** Shared state *)

(** The process state the handlers act on: the module-level dictionary
    [PAYMENT_STORE], which maps an id to a reference to the record
    dictionary; the record dictionaries themselves, by reference; and how
    many times the clock and the UUID generator have been consulted. *)
Record World : Type := mkWorld {
  PAYMENT_STORE : gmap string loc;
  heap : list IntentRecord.t;
  clock_reads : nat;
  uuid_draws : nat
}.

(** [PAYMENT_STORE: Dict[str, Dict] = {}] at import time. *)
Definition initial_world : World := mkWorld ∅ [] 0 0.

(** The record currently stored under [key], if any. *)
Definition intent_at (w : World) (key : string) : option IntentRecord.t :=
  match PAYMENT_STORE w !! key with
  | Some l => heap w !! l
  | None => None
  end.

(** The three calls a client can make. *)
Inductive Request : Type :=
| CreateIntent (payload : CreatePaymentIntentRequest.t)
| GetIntent (paymentId : string)
| ApplyWebhookEvent (event : WebhookEvent.t).

Definition handle (req : Request) : Prog PaymentIntent.t :=
  match req with
  | CreateIntent payload => create_payment_intent payload
  | GetIntent paymentId => get_payment paymentId
  | ApplyWebhookEvent event => payment_webhook event
  end.

(** A program that has returned or raised. *)
Definition finished {A} (p : Prog A) : bool :=
  match p with
  | Ret _ | Raise _ => true
  | _ => false
  end.

(** A pool of handler calls in flight over one world. *)
Record Config : Type := mkConfig {
  world : World;
  threads : list (Prog PaymentIntent.t)
}.

Section Semantics.
(** The environment: the [n]-th reading of the wall clock and the
    [n]-th value drawn from the UUID generator. *)
Variable clock : nat -> datetime.
Variable entropy : nat -> UUID.

(** The first action of [p], performed on [w]. A finished program, and
    a read through a reference to no object, stay as they are. *)
Definition step {A} (p : Prog A) (w : World) : Prog A * World :=
  match p with
  | Ret _ | Raise _ => (p, w)
  | Uuid4 k =>
      (k (entropy (uuid_draws w)),
       mkWorld (PAYMENT_STORE w) (heap w) (clock_reads w) (S (uuid_draws w)))
  | Now k =>
      (k (clock (clock_reads w)),
       mkWorld (PAYMENT_STORE w) (heap w) (S (clock_reads w)) (uuid_draws w))
  | NewDict r k =>
      (k (length (heap w)),
       mkWorld (PAYMENT_STORE w) (heap w ++ [r]) (clock_reads w) (uuid_draws w))
  | SetStatus l s k =>
      (k,
       mkWorld (PAYMENT_STORE w) (alter (IntentRecord.set_status s) l (heap w))
               (clock_reads w) (uuid_draws w))
  | SetUpdatedAt l d k =>
      (k,
       mkWorld (PAYMENT_STORE w) (alter (IntentRecord.set_updatedAt d) l (heap w))
               (clock_reads w) (uuid_draws w))
  | ReadDict l k =>
      match heap w !! l with
      | Some r => (k r, w)
      | None => (p, w)
      end
  | StoreGet key k => (k (PAYMENT_STORE w !! key), w)
  | StoreSet key l k =>
      (k,
       mkWorld (<[key := l]> (PAYMENT_STORE w)) (heap w)
               (clock_reads w) (uuid_draws w))
  end.

(** One call, from its first action to its return or raise. *)
Fixpoint run {A} (p : Prog A) (w : World) : Outcome A * World :=
  match p with
  | Ret a => (Returned a, w)
  | Raise e => (Raised e, w)
  | Uuid4 k =>
      run (k (entropy (uuid_draws w)))
          (mkWorld (PAYMENT_STORE w) (heap w) (clock_reads w) (S (uuid_draws w)))
  | Now k =>
      run (k (clock (clock_reads w)))
          (mkWorld (PAYMENT_STORE w) (heap w) (S (clock_reads w)) (uuid_draws w))
  | NewDict r k =>
      run (k (length (heap w)))
          (mkWorld (PAYMENT_STORE w) (heap w ++ [r]) (clock_reads w) (uuid_draws w))
  | SetStatus l s k =>
      run k (mkWorld (PAYMENT_STORE w)
                     (alter (IntentRecord.set_status s) l (heap w))
                     (clock_reads w) (uuid_draws w))
  | SetUpdatedAt l d k =>
      run k (mkWorld (PAYMENT_STORE w)
                     (alter (IntentRecord.set_updatedAt d) l (heap w))
                     (clock_reads w) (uuid_draws w))
  | ReadDict l k =>
      match heap w !! l with
      | Some r => run (k r) w
      | None => (Dangling, w)
      end
  | StoreGet key k => run (k (PAYMENT_STORE w !! key)) w
  | StoreSet key l k =>
      run k (mkWorld (<[key := l]> (PAYMENT_STORE w)) (heap w)
                     (clock_reads w) (uuid_draws w))
  end.

(** The dictionary [create_payment_intent] builds in world [w]: its id
    from the next UUID draw, its timestamps from the next clock reading,
    its secret from the draw after. *)
Definition created_record
    (payload : CreatePaymentIntentRequest.t) (w : World) : IntentRecord.t :=
  let intent_id := UUID_str (entropy (uuid_draws w)) in
  let created_at := clock (clock_reads w) in
  {| IntentRecord.id := intent_id;
     IntentRecord.orderId := CreatePaymentIntentRequest.orderId payload;
     IntentRecord.amount :=
       match CreatePaymentIntentRequest.amount payload with
       | Some a => a
       | None => _default_amount
       end;
     IntentRecord.currency :=
       or_default (CreatePaymentIntentRequest.currency payload) "INR";
     IntentRecord.status := REQUIRES_CONFIRMATION;
     IntentRecord.provider := "mockpay";
     IntentRecord.clientSecret :=
       "pi_" +:+ intent_id +:+ "_secret_" +:+
       substring 0 16 (UUID_hex (entropy (S (uuid_draws w))));
     IntentRecord.createdAt := created_at;
     IntentRecord.updatedAt := created_at |}.

(** Calls served one after another. *)
Fixpoint serve (reqs : list Request) (w : World)
    : list (Outcome PaymentIntent.t) * World :=
  match reqs with
  | [] => ([], w)
  | req :: reqs' =>
      let (o, w1) := run (handle req) w in
      let (os, w2) := serve reqs' w1 in
      (o :: os, w2)
  end.

(** The world after serving [reqs] from a fresh process. *)
Definition world_after (reqs : list Request) : World :=
  (serve reqs initial_world).2.

(** Thread [i] of the pool performs its next action. *)
Definition sched_step (c : Config) (i : nat) : Config :=
  match threads c !! i with
  | None => c
  | Some p =>
      let (p', w') := step p (world c) in
      mkConfig w' (<[i := p']> (threads c))
  end.

(** The pool under a schedule: the threads act in the order listed, one
    action each time they are named.  No handler takes a lock, so every
    schedule is possible. *)
Definition exec (schedule : list nat) (c : Config) : Config :=
  fold_left sched_step schedule c.

(** Thread [i] runs alone until it has returned or raised. *)
Definition run_thread (c : Config) (i : nat) : Config :=
  match threads c !! i with
  | None => c
  | Some p =>
      let (o, w') := run p (world c) in
      mkConfig w'
        (<[i := match o with
                | Returned a => Ret a
                | Raised e => Raise e
                | Dangling => p
                end]> (threads c))
  end.

(** The pool served in the given order, each call running alone. *)
Definition serial (order : list nat) (c : Config) : Config :=
  fold_left run_thread order c.
End Semantics.

Definition all_finished (c : Config) : bool :=
  forallb finished (threads c).

(** ** Vocabulary of the properties *)

(** No dictionary is stored under two ids, every stored reference is to
    a live dictionary, and a dictionary is stored under its own ["id"]. *)
Definition wf_world (w : World) : Prop :=
  (forall key l, PAYMENT_STORE w !! key = Some l -> l < length (heap w)) /\
  (forall key1 key2 l,
     PAYMENT_STORE w !! key1 = Some l -> PAYMENT_STORE w !! key2 = Some l ->
     key1 = key2) /\
  (forall key l r,
     PAYMENT_STORE w !! key = Some l -> heap w !! l = Some r ->
     IntentRecord.id r = key).

(** [0 <= x] on floats; false of negative numbers and of NaN. *)
Definition nonneg (x : float) : bool := PrimFloat.leb 0 x.

Definition amounts_nonneg (w : World) : Prop :=
  forall key r, intent_at w key = Some r ->
                nonneg (IntentRecord.amount r) = true.

(** The same, of every dictionary whether stored or not. *)
Definition heap_amounts_nonneg (w : World) : Prop :=
  forall l r, heap w !! l = Some r -> nonneg (IntentRecord.amount r) = true.

(** The request carries no amount, or a non-negative one. *)
Definition amount_given_nonneg (req : Request) : bool :=
  match req with
  | CreateIntent payload =>
      match CreatePaymentIntentRequest.amount payload with
      | Some a => nonneg a
      | None => true
      end
  | _ => true
  end.

(** The wall clock never runs backwards. *)
Definition clock_monotone (clock : nat -> datetime) : Prop :=
  forall i j, i <= j -> (clock i <= clock j)%Z.

(** Every dictionary carries its timestamps in order, and its creation
    time is a clock reading already taken. *)
Definition heap_times_ordered (clock : nat -> datetime) (w : World) : Prop :=
  forall l r, heap w !! l = Some r ->
    (IntentRecord.createdAt r <= IntentRecord.updatedAt r)%Z /\
    exists j, j < clock_reads w /\ IntentRecord.createdAt r = clock j.

(** The first [n] values drawn from the generator are 128-bit and
    pairwise distinct. *)
Definition draws_distinct (entropy : nat -> UUID) (n : nat) : Prop :=
  (forall i, i < n -> (entropy i < 2 ^ 128)%N) /\
  (forall i j, i < n -> j < n -> entropy i = entropy j -> i = j).

Definition is_create (req : Request) : bool :=
  match req with
  | CreateIntent _ => true
  | _ => false
  end.

Definition count_creates (reqs : list Request) : nat :=
  length (filter (fun req => is_create req = true) reqs).

(** The ids handed out by the creations among [reqs], given the
    outcomes of serving [reqs]. *)
Fixpoint created_ids
    (reqs : list Request) (outs : list (Outcome PaymentIntent.t))
    : list string :=
  match reqs, outs with
  | CreateIntent _ :: reqs', Returned intent :: outs' =>
      PaymentIntent.id intent :: created_ids reqs' outs'
  | _ :: reqs', _ :: outs' => created_ids reqs' outs'
  | _, _ => []
  end.

(** ** Handlers part-way through

    Where a call in flight stands, and the program it still has to run
    from there.  The stages are the points between two actions on shared
    state, named after the source lines they separate. *)

(** [return PaymentIntent( **record)], the last action of each handler. *)
Definition respond (l : loc) : Prog PaymentIntent.t :=
  ReadDict l (fun r => Ret (PaymentIntent_of r)).

(** The dictionary literal of [create_payment_intent], lines 128-138. *)
Definition new_record
    (payload : CreatePaymentIntentRequest.t)
    (u : UUID) (created_at : datetime) (u' : UUID) : IntentRecord.t :=
  {| IntentRecord.id := UUID_str u;
     IntentRecord.orderId := CreatePaymentIntentRequest.orderId payload;
     IntentRecord.amount :=
       match CreatePaymentIntentRequest.amount payload with
       | Some a => a
       | None => _default_amount
       end;
     IntentRecord.currency :=
       or_default (CreatePaymentIntentRequest.currency payload) "INR";
     IntentRecord.status := REQUIRES_CONFIRMATION;
     IntentRecord.provider := "mockpay";
     IntentRecord.clientSecret :=
       "pi_" +:+ UUID_str u +:+ "_secret_" +:+ substring 0 16 (UUID_hex u');
     IntentRecord.createdAt := created_at;
     IntentRecord.updatedAt := created_at |}.

(** A [payment_webhook] call that found its record and mapped its
    event. [j] is the index of the clock reading the call took. *)
Inductive webhook_phase : Type :=
| WStart                                (* before line 179 *)
| WFound                                (* before line 195 *)
| WMarked                               (* before the call of line 196 *)
| WTimed (j : nat)                      (* before the store of line 196 *)
| WStamped (j : nat)                    (* before line 200 *)
| WStored (j : nat)                     (* before line 201 *)
| WDone (j : nat) (r : IntentRecord.t). (* returned *)

Definition webhook_rank (ph : webhook_phase) : nat :=
  match ph with
  | WStart => 0
  | WFound => 1
  | WMarked => 2
  | WTimed _ => 3
  | WStamped _ => 4
  | WStored _ => 5
  | WDone _ _ => 6
  end.

Definition webhook_reading (ph : webhook_phase) : option nat :=
  match ph with
  | WStart | WFound | WMarked => None
  | WTimed j | WStamped j | WStored j | WDone j _ => Some j
  end.

(** A [create_payment_intent] call. [k] and [k'] are the indices of the
    two UUID draws, [j] of the clock reading, [l] the new dictionary. *)
Inductive create_phase : Type :=
| CStart                                 (* before line 119 *)
| CDrawn (k : nat)                       (* before line 120 *)
| CTimed (k j : nat)                     (* before line 126 *)
| CSecret (k j k' : nat)                 (* before line 128 *)
| CBuilt (k j k' : nat) (l : loc)        (* before line 140 *)
| CStored (k j k' : nat) (l : loc)       (* before line 141 *)
| CDone (k j k' : nat) (l : loc).        (* returned *)

Definition create_rank (ph : create_phase) : nat :=
  match ph with
  | CStart => 0
  | CDrawn _ => 1
  | CTimed _ _ => 2
  | CSecret _ _ _ => 3
  | CBuilt _ _ _ _ => 4
  | CStored _ _ _ _ => 5
  | CDone _ _ _ _ => 6
  end.

(** The index of the draw the call took its id from. *)
Definition create_draw (ph : create_phase) : option nat :=
  match ph with
  | CStart => None
  | CDrawn k | CTimed k _ | CSecret k _ _
  | CBuilt k _ _ _ | CStored k _ _ _ | CDone k _ _ _ => Some k
  end.

Definition create_loc (ph : create_phase) : option loc :=
  match ph with
  | CBuilt _ _ _ l | CStored _ _ _ l | CDone _ _ _ l => Some l
  | _ => None
  end.

Section Stages.
Variable clock : nat -> datetime.
Variable entropy : nat -> UUID.

(** What is left of [payment_webhook event] at each stage, for a record
    found at [l] and an event mapped to [s]. *)
Definition webhook_at
    (event : WebhookEvent.t) (l : loc) (s : PaymentStatus)
    (ph : webhook_phase) : Prog PaymentIntent.t :=
  let paymentId := WebhookEvent.paymentId event in
  match ph with
  | WStart => payment_webhook event
  | WFound =>
      SetStatus l s
        (Now (fun d => SetUpdatedAt l d (StoreSet paymentId l (respond l))))
  | WMarked =>
      Now (fun d => SetUpdatedAt l d (StoreSet paymentId l (respond l)))
  | WTimed j => SetUpdatedAt l (clock j) (StoreSet paymentId l (respond l))
  | WStamped _ => StoreSet paymentId l (respond l)
  | WStored _ => respond l
  | WDone _ r => Ret (PaymentIntent_of r)
  end.

(** The stage after one more action in world [w]. *)
Definition webhook_next
    (w : World) (l : loc) (ph : webhook_phase) : webhook_phase :=
  match ph with
  | WStart => WFound
  | WFound => WMarked
  | WMarked => WTimed (clock_reads w)
  | WTimed j => WStamped j
  | WStamped j => WStored j
  | WStored j =>
      match heap w !! l with
      | Some r => WDone j r
      | None => WStored j
      end
  | WDone j r => WDone j r
  end.

(** The dictionary a creation builds from its draws and clock reading. *)
Definition create_record
    (payload : CreatePaymentIntentRequest.t) (k j k' : nat) : IntentRecord.t :=
  new_record payload (entropy k) (clock j) (entropy k').

(** What is left of [create_payment_intent payload] at each stage. *)
Definition create_at
    (payload : CreatePaymentIntentRequest.t)
    (ph : create_phase) : Prog PaymentIntent.t :=
  match ph with
  | CStart => create_payment_intent payload
  | CDrawn k =>
      Now (fun d =>
        Uuid4 (fun u' =>
          NewDict (new_record payload (entropy k) d u')
            (fun l => StoreSet (UUID_str (entropy k)) l (respond l))))
  | CTimed k j =>
      Uuid4 (fun u' =>
        NewDict (new_record payload (entropy k) (clock j) u')
          (fun l => StoreSet (UUID_str (entropy k)) l (respond l)))
  | CSecret k j k' =>
      NewDict (create_record payload k j k')
        (fun l => StoreSet (UUID_str (entropy k)) l (respond l))
  | CBuilt k _ _ l => StoreSet (UUID_str (entropy k)) l (respond l)
  | CStored _ _ _ l => respond l
  | CDone k j k' _ => Ret (PaymentIntent_of (create_record payload k j k'))
  end.

Definition create_next (w : World) (ph : create_phase) : create_phase :=
  match ph with
  | CStart => CDrawn (uuid_draws w)
  | CDrawn k => CTimed k (clock_reads w)
  | CTimed k j => CSecret k j (uuid_draws w)
  | CSecret k j k' => CBuilt k j k' (length (heap w))
  | CBuilt k j k' l => CStored k j k' l
  | CStored k j k' l => CDone k j k' l
  | CDone k j k' l => CDone k j k' l
  end.
End Stages.

(** The world after the next action of a webhook call at stage [ph]. *)
Definition webhook_effect
    (clock : nat -> datetime) (event : WebhookEvent.t) (l : loc)
    (s : PaymentStatus) (ph : webhook_phase) (w : World) : World :=
  match ph with
  | WStart => w
  | WFound =>
      mkWorld (PAYMENT_STORE w) (alter (IntentRecord.set_status s) l (heap w))
              (clock_reads w) (uuid_draws w)
  | WMarked =>
      mkWorld (PAYMENT_STORE w) (heap w) (S (clock_reads w)) (uuid_draws w)
  | WTimed j =>
      mkWorld (PAYMENT_STORE w)
              (alter (IntentRecord.set_updatedAt (clock j)) l (heap w))
              (clock_reads w) (uuid_draws w)
  | WStamped _ =>
      mkWorld (<[WebhookEvent.paymentId event := l]> (PAYMENT_STORE w))
              (heap w) (clock_reads w) (uuid_draws w)
  | WStored _ => w
  | WDone _ _ => w
  end.

(** The world after the next action of a creation at stage [ph]. *)
Definition create_effect
    (clock : nat -> datetime) (entropy : nat -> UUID)
    (payload : CreatePaymentIntentRequest.t)
    (ph : create_phase) (w : World) : World :=
  match ph with
  | CStart | CTimed _ _ =>
      mkWorld (PAYMENT_STORE w) (heap w) (clock_reads w) (S (uuid_draws w))
  | CDrawn _ =>
      mkWorld (PAYMENT_STORE w) (heap w) (S (clock_reads w)) (uuid_draws w)
  | CSecret k j k' =>
      mkWorld (PAYMENT_STORE w)
              (heap w ++ [create_record clock entropy payload k j k'])
              (clock_reads w) (uuid_draws w)
  | CBuilt k _ _ l =>
      mkWorld (<[UUID_str (entropy k) := l]> (PAYMENT_STORE w)) (heap w)
              (clock_reads w) (uuid_draws w)
  | CStored _ _ _ _ => w
  | CDone _ _ _ _ => w
  end.

(** The fields no handler writes after creation. *)
Definition same_identity (r r0 : IntentRecord.t) : Prop :=
  IntentRecord.id r = IntentRecord.id r0 /\
  IntentRecord.orderId r = IntentRecord.orderId r0 /\
  IntentRecord.amount r = IntentRecord.amount r0 /\
  IntentRecord.currency r = IntentRecord.currency r0 /\
  IntentRecord.provider r = IntentRecord.provider r0 /\
  IntentRecord.clientSecret r = IntentRecord.clientSecret r0 /\
  IntentRecord.createdAt r = IntentRecord.createdAt r0.

(** A pool of webhook calls on one stored intent: [jobs] pairs each
    call's event with the status it maps to; [w0] is the world the pool
    started in, where [l] held the record [r0]. *)
Section WebhookPool.
Variable clock : nat -> datetime.
Variable w0 : World.
Variable l : loc.
Variable r0 : IntentRecord.t.
Variable jobs : list (WebhookEvent.t * PaymentStatus).

(** The record's status was written by a call that has passed line 195;
    or no call has, and the status is the one the pool started with. *)
Definition status_settled
    (r : IntentRecord.t) (phs : list webhook_phase) : Prop :=
  (exists i job ph,
     jobs !! i = Some job /\ phs !! i = Some ph /\
     2 <= webhook_rank ph /\ IntentRecord.status r = job.2) \/
  ((forall i ph, phs !! i = Some ph -> webhook_rank ph < 2) /\
   IntentRecord.status r = IntentRecord.status r0).

(** Likewise for [updatedAt] and line 196. *)
Definition stamp_settled
    (r : IntentRecord.t) (phs : list webhook_phase) : Prop :=
  (exists i ph j,
     phs !! i = Some ph /\ 4 <= webhook_rank ph /\
     webhook_reading ph = Some j /\ IntentRecord.updatedAt r = clock j) \/
  ((forall i ph, phs !! i = Some ph -> webhook_rank ph < 4) /\
   IntentRecord.updatedAt r = IntentRecord.updatedAt r0).

Definition webhook_pool_inv (c : Config) (phs : list webhook_phase) : Prop :=
  threads c
    = zip_with (fun job ph => webhook_at clock job.1 l job.2 ph) jobs phs /\
  length phs = length jobs /\
  PAYMENT_STORE (world c) = PAYMENT_STORE w0 /\
  clock_reads w0 <= clock_reads (world c) /\
  (forall i ph j,
     phs !! i = Some ph -> webhook_reading ph = Some j ->
     clock_reads w0 <= j < clock_reads (world c)) /\
  (exists r,
     heap (world c) !! l = Some r /\ same_identity r r0 /\
     status_settled r phs /\ stamp_settled r phs) /\
  (forall i j r',
     phs !! i = Some (WDone j r') ->
     same_identity r' r0 /\
     (exists i' job, jobs !! i' = Some job /\ IntentRecord.status r' = job.2) /\
     (exists j', clock_reads w0 <= j' < clock_reads (world c) /\
                 IntentRecord.updatedAt r' = clock j')).
End WebhookPool.

(** An event paired with the status [status_map] gives it. *)
Definition webhook_job (event : WebhookEvent.t)
    : WebhookEvent.t * PaymentStatus :=
  (event,
   default REQUIRES_PAYMENT_METHOD
     (dict_get status_map (WebhookEvent.type event))).

(** The draws, clock reading and dictionary of a creation that has
    built its dictionary. *)
Definition create_built (ph : create_phase) : option (nat * nat * nat * loc) :=
  match ph with
  | CBuilt k j k' l | CStored k j k' l | CDone k j k' l => Some (k, j, k', l)
  | _ => None
  end.

(** A pool of creations started in world [w0]. *)
Section CreatePool.
Variable clock : nat -> datetime.
Variable entropy : nat -> UUID.
Variable w0 : World.
Variable payloads : list CreatePaymentIntentRequest.t.

Definition create_pool_inv (c : Config) (phs : list create_phase) : Prop :=
  threads c = zip_with (create_at clock entropy) payloads phs /\
  length phs = length payloads /\
  uuid_draws w0 <= uuid_draws (world c) /\
  (* each call drew its id at its own position *)
  (forall i ph k,
     phs !! i = Some ph -> create_draw ph = Some k ->
     uuid_draws w0 <= k < uuid_draws (world c)) /\
  (forall i1 i2 ph1 ph2 k,
     phs !! i1 = Some ph1 -> phs !! i2 = Some ph2 ->
     create_draw ph1 = Some k -> create_draw ph2 = Some k -> i1 = i2) /\
  (* a dictionary once built stays as built *)
  (forall i payload ph k j k' l,
     payloads !! i = Some payload -> phs !! i = Some ph ->
     create_built ph = Some (k, j, k', l) ->
     heap (world c) !! l = Some (create_record clock entropy payload k j k')) /\
  (forall l r, heap w0 !! l = Some r -> heap (world c) !! l = Some r) /\
  (* the store holds what was there at the start and what the calls
     past line 140 have put *)
  (forall i ph k j k' l,
     phs !! i = Some ph -> 5 <= create_rank ph ->
     create_built ph = Some (k, j, k', l) ->
     PAYMENT_STORE (world c) !! UUID_str (entropy k) = Some l) /\
  (forall key l,
     PAYMENT_STORE (world c) !! key = Some l ->
     PAYMENT_STORE w0 !! key = Some l \/
     exists i ph k j k',
       phs !! i = Some ph /\ 5 <= create_rank ph /\
       create_built ph = Some (k, j, k', l) /\ key = UUID_str (entropy k)) /\
  (forall key l,
     PAYMENT_STORE w0 !! key = Some l ->
     PAYMENT_STORE (world c) !! key = Some l).
End CreatePool.

(** The ids of the intents the threads of a pool have returned. *)
Definition returned_ids (c : Config) : list string :=
  omap (fun p => match p with
                 | Ret intent => Some (PaymentIntent.id intent)
                 | _ => None
                 end) (threads c).

(** Every store key was rendered from a value already drawn. *)
Definition keys_drawn (entropy : nat -> UUID) (w : World) : Prop :=
  forall key, is_Some (PAYMENT_STORE w !! key) ->
    exists k, k < uuid_draws w /\ key = UUID_str (entropy k).

(** The calls of a pool serialize: whatever the schedule, once every
    call has finished, the responses and the stored intents are those of
    the calls served one at a time in some order. *)
Definition serializable
    (clock : nat -> datetime) (entropy : nat -> UUID) (c : Config) : Prop :=
  forall schedule,
    all_finished (exec clock entropy schedule c) = true ->
    exists order,
      Permutation order (seq 0 (length (threads c))) /\
      threads (exec clock entropy schedule c)
        = threads (serial clock entropy order c) /\
      forall key,
        intent_at (world (exec clock entropy schedule c)) key
          = intent_at (world (serial clock entropy order c)) key.

(** ** Vocabulary of further properties *)

(** Every stored intent satisfies [P]. *)
Definition every_intent (P : IntentRecord.t -> Prop) (w : World) : Prop :=
  forall key r, intent_at w key = Some r -> P r.

(** Every dictionary satisfies [P], whether the store refers to it or not. *)
Definition every_record (P : IntentRecord.t -> Prop) (w : World) : Prop :=
  forall l r, heap w !! l = Some r -> P r.

(** Whatever it reads on its way, the program builds only dictionaries
    that satisfy [built] and writes only statuses that satisfy
    [written]. *)
Fixpoint writes_only {A}
    (built : IntentRecord.t -> Prop) (written : PaymentStatus -> Prop)
    (p : Prog A) : Prop :=
  match p with
  | Ret _ | Raise _ => True
  | Uuid4 k => forall u, writes_only built written (k u)
  | Now k => forall d, writes_only built written (k d)
  | NewDict r k => built r /\ forall l, writes_only built written (k l)
  | SetStatus _ s k => written s /\ writes_only built written k
  | SetUpdatedAt _ _ k => writes_only built written k
  | ReadDict _ k => forall r, writes_only built written (k r)
  | StoreGet _ k => forall o, writes_only built written (k o)
  | StoreSet _ _ k => writes_only built written k
  end.

(** A property of dictionaries that holds of the ones built and that
    the writes of statuses and timestamps keep. *)
Definition kept_by_writes
    (built : IntentRecord.t -> Prop) (written : PaymentStatus -> Prop)
    (P : IntentRecord.t -> Prop) : Prop :=
  (forall r, built r -> P r) /\
  (forall r s, P r -> written s -> P (IntentRecord.set_status s r)) /\
  (forall r d, P r -> P (IntentRecord.set_updatedAt d r)).

(** From [w] to [w'] no store key is lost and every dictionary is still
    there with its identity fields. *)
Definition grows_to (w w' : World) : Prop :=
  (forall key, is_Some (PAYMENT_STORE w !! key) ->
               is_Some (PAYMENT_STORE w' !! key)) /\
  (forall l r, heap w !! l = Some r ->
     exists r', heap w' !! l = Some r' /\ same_identity r' r).

(** The statuses the handlers write: the one given at creation and the
    five targets of [status_map]. *)
Definition written_statuses : list PaymentStatus :=
  [REQUIRES_CONFIRMATION; SUCCEEDED; FAILED; PROCESSING; CANCELLED; REFUNDED].

(** The shape every record dictionary has: the fixed provider, a
    non-empty currency, a 36-character id, and a secret made of the id
    and 16 more characters. *)
Definition well_shaped (r : IntentRecord.t) : Prop :=
  IntentRecord.provider r = "mockpay" /\
  IntentRecord.currency r <> "" /\
  String.length (IntentRecord.id r) = 36 /\
  exists tail,
    String.length tail = 16 /\
    IntentRecord.clientSecret r
      = "pi_" +:+ IntentRecord.id r +:+ "_secret_" +:+ tail.

(** The dictionary has a non-negative amount. *)
Definition amount_nonneg (r : IntentRecord.t) : Prop :=
  nonneg (IntentRecord.amount r) = true.

(** How many calls of a webhook pool have read the clock. *)
Definition readings_taken (phs : list webhook_phase) : nat :=
  length (filter (fun ph => 3 <= webhook_rank ph) phs).

(** What a pool of webhook calls on the record at [l] keeps, as far as
    the count of clock readings goes. *)
Definition webhook_pool_count
    (clock : nat -> datetime) (w0 : World) (l : loc)
    (jobs : list (WebhookEvent.t * PaymentStatus))
    (c : Config) (phs : list webhook_phase) : Prop :=
  threads c
    = zip_with (fun job ph => webhook_at clock job.1 l job.2 ph) jobs phs /\
  length phs = length jobs /\
  PAYMENT_STORE (world c) = PAYMENT_STORE w0 /\
  l < length (heap (world c)) /\
  clock_reads (world c) = clock_reads w0 + readings_taken phs.

(** The program leaves the store [store] as it is: it makes no
    dictionary, and what it binds a key to is what [store] already has
    under that key.  Its lookups are answered from [store]. *)
Fixpoint keeps_store {A} (store : gmap string loc) (p : Prog A) : Prop :=
  match p with
  | Ret _ | Raise _ => True
  | Uuid4 k => forall u, keeps_store store (k u)
  | Now k => forall d, keeps_store store (k d)
  | NewDict _ _ => False
  | SetStatus _ _ k => keeps_store store k
  | SetUpdatedAt _ _ k => keeps_store store k
  | ReadDict _ k => forall r, keeps_store store (k r)
  | StoreGet key k => keeps_store store (k (store !! key))
  | StoreSet key l k => store !! key = Some l /\ keeps_store store k
  end.

(** ** A sample environment

    A clock that advances by one microsecond per reading, a generator
    that never repeats, and the world after one creation; used to run
    the handlers on concrete inputs. *)
Definition demo_clock (n : nat) : datetime := (1700000000000000 + Z.of_nat n)%Z.
Definition demo_entropy (n : nat) : UUID := (N.of_nat n * 1000003 + 17)%N.
Definition demo_payload : CreatePaymentIntentRequest.t :=
  CreatePaymentIntentRequest.mk "ord-1" CARD None (Some "INR").
Definition demo_id : string := UUID_str (demo_entropy 0).
Definition demo_world : World :=
  world_after demo_clock demo_entropy [CreateIntent demo_payload].
Definition demo_record : IntentRecord.t :=
  created_record demo_clock demo_entropy demo_payload initial_world.


Definition demo_succeeded : WebhookEvent.t :=
  WebhookEvent.mk "payment_intent.succeeded" demo_id None None.
Definition demo_failed : WebhookEvent.t :=
  WebhookEvent.mk "payment_intent.failed" demo_id None None.

(** Two webhook calls on the sample intent, in flight together. *)
Definition demo_pool : Config :=
  mkConfig demo_world
    [payment_webhook demo_succeeded; payment_webhook demo_failed].

(** The first call is preempted after line 195, the second runs from
    start to end, then the first resumes. *)
Definition demo_schedule : list nat := [0; 0; 1; 1; 1; 1; 1; 1; 0; 0; 0; 0].

(** The first call is preempted between reading the clock and writing
    [updatedAt] at line 196. *)
Definition demo_schedule_late : list nat :=
  [0; 0; 0; 1; 1; 1; 1; 1; 1; 0; 0; 0].

(** A generator that returns the same value at every draw. *)
Definition demo_entropy_stuck (n : nat) : UUID := 5%N.

(** A clock that is set back after its first reading. *)
Definition demo_clock_set_back (n : nat) : datetime :=
  match n with
  | 0 => 10%Z
  | _ => 5%Z
  end.

(** A second order, for a second creation. *)
Definition demo_payload_2 : CreatePaymentIntentRequest.t :=
  CreatePaymentIntentRequest.mk "ord-2" UPI (Some 250%float) None.

(** * Properties *)

#[local] Arguments falsy_status : simpl never.
#[local] Arguments dict_get : simpl never.

(** ** One call at a time *)

Section Sequential.
Variable clock : nat -> datetime.
Variable entropy : nat -> UUID.

Lemma falsy_status_Some s : falsy_status (Some s) = false.
Proof. by destruct s. Qed.

Lemma run_create_payment_intent
    (payload : CreatePaymentIntentRequest.t) (w : World) :
  run clock entropy (create_payment_intent payload) w =
  (Returned (PaymentIntent_of (created_record clock entropy payload w)),
   mkWorld (<[UUID_str (entropy (uuid_draws w)) := length (heap w)]>
              (PAYMENT_STORE w))
           (heap w ++ [created_record clock entropy payload w])
           (S (clock_reads w)) (S (S (uuid_draws w)))).
Proof.
  cbn. rewrite list_lookup_middle; [|done]. reflexivity.
Qed.

Lemma run_get_payment (paymentId : string) (w : World) :
  run clock entropy (get_payment paymentId) w =
  match PAYMENT_STORE w !! paymentId with
  | None => (Raised (mkHTTPException 404 "Payment not found"), w)
  | Some l =>
      match heap w !! l with
      | Some r => (Returned (PaymentIntent_of r), w)
      | None => (Dangling, w)
      end
  end.
Proof.
  cbn. destruct (PAYMENT_STORE w !! paymentId) as [l|]; cbn; [|done].
  by destruct (heap w !! l).
Qed.

Lemma run_payment_webhook (event : WebhookEvent.t) (w : World) :
  run clock entropy (payment_webhook event) w =
  match PAYMENT_STORE w !! WebhookEvent.paymentId event with
  | None => (Raised (mkHTTPException 404 "Payment not found"), w)
  | Some l =>
      match dict_get status_map (WebhookEvent.type event) with
      | None => (Raised (mkHTTPException 400 "Unsupported event type"), w)
      | Some s =>
          let d := clock (clock_reads w) in
          let w' :=
            mkWorld (<[WebhookEvent.paymentId event := l]> (PAYMENT_STORE w))
                    (alter (IntentRecord.set_updatedAt d) l
                       (alter (IntentRecord.set_status s) l (heap w)))
                    (S (clock_reads w)) (uuid_draws w) in
          match heap w !! l with
          | Some r =>
              (Returned (PaymentIntent_of
                 (IntentRecord.set_updatedAt d (IntentRecord.set_status s r))),
               w')
          | None => (Dangling, w')
          end
      end
  end.
Proof.
  unfold payment_webhook.
  generalize (dict_get status_map (WebhookEvent.type event)) as ns.
  intros ns. cbn.
  destruct (PAYMENT_STORE w !! _) as [l|]; cbn; [|done].
  destruct ns as [s|]; cbn; [|done].
  rewrite falsy_status_Some. cbn.
  rewrite !list_lookup_alter_eq.
  by destruct (heap w !! l).
Qed.

End Sequential.

Ltac case_eqb ty :=
  match goal with
  | |- context [String.eqb ?a ty] =>
      let E := fresh "E" in
      destruct (String.eqb a ty) eqn:E;
      [apply String.eqb_eq in E; subst ty|clear E]
  end.

Lemma dict_get_status_map_Some (ty : string) (s : PaymentStatus) :
  dict_get status_map ty = Some s <->
  In (ty, s)
     [ ("payment_intent.succeeded", SUCCEEDED);
       ("payment_intent.failed", FAILED);
       ("payment_intent.processing", PROCESSING);
       ("payment_intent.canceled", CANCELLED);
       ("payment_intent.refunded", REFUNDED) ].
Proof.
  unfold dict_get, status_map. split.
  - repeat (case_eqb ty; [intros [= <-]; cbn; tauto|]).
    intros [=].
  - cbn. intros H.
    repeat (destruct H as [[= <- <-]|H]; [reflexivity|]). destruct H.
Qed.

Lemma dict_get_status_map_None (ty : string) :
  dict_get status_map ty = None <-> ~ In ty WebhookEvent.type_literals.
Proof.
  unfold dict_get, status_map, WebhookEvent.type_literals. split.
  - intros Hget Hin. cbn in Hin.
    repeat (destruct Hin as [<-|Hin]; [discriminate Hget|]). destruct Hin.
  - intros H.
    repeat (case_eqb ty; [destruct H; cbn; tauto|]).
    reflexivity.
Qed.

Lemma intent_at_unfold (w : World) (key : string) (r : IntentRecord.t) :
  intent_at w key = Some r <->
  exists l, PAYMENT_STORE w !! key = Some l /\ heap w !! l = Some r.
Proof.
  unfold intent_at. destruct (PAYMENT_STORE w !! key) as [l|]; split.
  - eauto.
  - by intros (l' & [= <-] & ?).
  - discriminate.
  - by intros (l' & [=] & ?).
Qed.

(** C1. A webhook event of one of the five recognised types, aimed at a
    stored intent, returns the record with [status] set to the mapped
    target and [updatedAt] set to the clock reading of the call, and
    leaves that record in the store; nothing is asked of the record's
    status before the call. *)
Theorem webhook_sets_mapped_status
    (clock : nat -> datetime) (entropy : nat -> UUID)
    (w : World) (event : WebhookEvent.t)
    (r : IntentRecord.t) (target : PaymentStatus) :
  intent_at w (WebhookEvent.paymentId event) = Some r ->
  In (WebhookEvent.type event, target)
     [ ("payment_intent.succeeded", SUCCEEDED);
       ("payment_intent.failed", FAILED);
       ("payment_intent.processing", PROCESSING);
       ("payment_intent.canceled", CANCELLED);
       ("payment_intent.refunded", REFUNDED) ] ->
  let now := clock (clock_reads w) in
  let r' := IntentRecord.set_updatedAt now (IntentRecord.set_status target r) in
  exists w',
    run clock entropy (payment_webhook event) w
      = (Returned (PaymentIntent_of r'), w') /\
    intent_at w' (WebhookEvent.paymentId event) = Some r' /\
    IntentRecord.status r' = target /\
    IntentRecord.updatedAt r' = now.
Proof.
  intros Hat Hin now r'.
  apply intent_at_unfold in Hat as (l & Hl & Hr).
  apply dict_get_status_map_Some in Hin.
  rewrite run_payment_webhook, Hl, Hin. cbn zeta. rewrite Hr.
  eexists. split; [reflexivity|]. split; [|done].
  unfold intent_at. cbn. rewrite lookup_insert_eq.
  by rewrite !list_lookup_alter_eq, Hr.
Qed.

Lemma webhook_sets_mapped_status_witness :
  exists w',
    run demo_clock demo_entropy
      (payment_webhook
         (WebhookEvent.mk "payment_intent.canceled" demo_id None None))
      demo_world
    = (Returned (PaymentIntent_of
         (IntentRecord.set_updatedAt (demo_clock 1)
            (IntentRecord.set_status CANCELLED demo_record))), w').
Proof.
  destruct (webhook_sets_mapped_status demo_clock demo_entropy demo_world
              (WebhookEvent.mk "payment_intent.canceled" demo_id None None)
              demo_record CANCELLED) as (w' & H & _).
  - vm_compute. reflexivity.
  - cbn. tauto.
  - exists w'. exact H.
Defined.

(** C2. Every creation returns an intent with status
    [requires_confirmation], provider ["mockpay"] and equal timestamps,
    and stores it under its id: a lookup of that id right after returns
    the very same intent. *)
Theorem create_then_get
    (clock : nat -> datetime) (entropy : nat -> UUID)
    (w : World) (payload : CreatePaymentIntentRequest.t) :
  exists (intent : PaymentIntent.t) (w' : World),
    run clock entropy (create_payment_intent payload) w
      = (Returned intent, w') /\
    PaymentIntent.status intent = REQUIRES_CONFIRMATION /\
    PaymentIntent.provider intent = Some "mockpay" /\
    PaymentIntent.createdAt intent = PaymentIntent.updatedAt intent /\
    (exists r, intent_at w' (PaymentIntent.id intent) = Some r /\
               IntentRecord.id r = PaymentIntent.id intent /\
               PaymentIntent_of r = intent) /\
    run clock entropy (get_payment (PaymentIntent.id intent)) w'
      = (Returned intent, w').
Proof.
  eexists _, _. split; [apply run_create_payment_intent|].
  repeat split.
  - exists (created_record clock entropy payload w).
    unfold intent_at. cbn. rewrite lookup_insert_eq.
    by rewrite list_lookup_middle.
  - rewrite run_get_payment. cbn. rewrite lookup_insert_eq.
    by rewrite list_lookup_middle.
Qed.

(** C3. [get_payment] raises 404 exactly when the store has no entry
    for the id; [payment_webhook] raises 404 exactly when the store has
    no entry for [paymentId], whatever the event type; with an entry and
    a type outside the five, it raises 400; and a call that raises
    leaves the world as it was. *)
Theorem errors_and_their_order
    (clock : nat -> datetime) (entropy : nat -> UUID)
    (w : World) (paymentId : string) (event : WebhookEvent.t) :
  ((run clock entropy (get_payment paymentId) w).1
     = Raised (mkHTTPException 404 "Payment not found")
   <-> PAYMENT_STORE w !! paymentId = None) /\
  ((run clock entropy (payment_webhook event) w).1
     = Raised (mkHTTPException 404 "Payment not found")
   <-> PAYMENT_STORE w !! WebhookEvent.paymentId event = None) /\
  (PAYMENT_STORE w !! WebhookEvent.paymentId event <> None ->
   ~ In (WebhookEvent.type event)
        [ "payment_intent.succeeded"; "payment_intent.failed";
          "payment_intent.processing"; "payment_intent.canceled";
          "payment_intent.refunded" ] ->
   (run clock entropy (payment_webhook event) w).1
     = Raised (mkHTTPException 400 "Unsupported event type")) /\
  (forall e, (run clock entropy (get_payment paymentId) w).1 = Raised e ->
             (run clock entropy (get_payment paymentId) w).2 = w) /\
  (forall e, (run clock entropy (payment_webhook event) w).1 = Raised e ->
             (run clock entropy (payment_webhook event) w).2 = w).
Proof.
  rewrite run_get_payment, run_payment_webhook.
  repeat split.
  - destruct (PAYMENT_STORE w !! paymentId) as [l|]; [|done].
    by destruct (heap w !! l).
  - by intros ->.
  - destruct (PAYMENT_STORE w !! _) as [l|]; [|done].
    destruct (dict_get _ _); [|done]. cbn zeta.
    by destruct (heap w !! l).
  - by intros ->.
  - intros Hsome Hty. apply dict_get_status_map_None in Hty.
    rewrite Hty. by destruct (PAYMENT_STORE w !! _).
  - intros e. destruct (PAYMENT_STORE w !! paymentId) as [l|]; [|done].
    by destruct (heap w !! l).
  - intros e. destruct (PAYMENT_STORE w !! _) as [l|]; [|done].
    destruct (dict_get _ _); [|done]. cbn zeta.
    by destruct (heap w !! l).
Qed.

(** C9. A creation whose body leaves [amount] out, or sends it as null,
    stores amount 100.0; one whose body leaves [currency] out, sends it
    as null, or sends the empty string, stores ["INR"]; an amount that is
    sent, and a currency that is sent non-empty, are stored as sent. *)
Theorem create_defaults
    (clock : nat -> datetime) (entropy : nat -> UUID)
    (w : World) (b : CreatePaymentIntentRequest.body)
    (payload : CreatePaymentIntentRequest.t) :
  CreatePaymentIntentRequest.validate b = Some payload ->
  exists (intent : PaymentIntent.t) (w' : World) (r : IntentRecord.t),
    run clock entropy (create_payment_intent payload) w
      = (Returned intent, w') /\
    intent_at w' (PaymentIntent.id intent) = Some r /\
    PaymentIntent_of r = intent /\
    (CreatePaymentIntentRequest.body_amount b = Absent \/
     CreatePaymentIntentRequest.body_amount b = Null ->
     IntentRecord.amount r = 100%float) /\
    (CreatePaymentIntentRequest.body_currency b = Absent \/
     CreatePaymentIntentRequest.body_currency b = Null \/
     CreatePaymentIntentRequest.body_currency b = Given "" ->
     IntentRecord.currency r = "INR") /\
    (forall a, CreatePaymentIntentRequest.body_amount b = Given a ->
               IntentRecord.amount r = a) /\
    (forall c, CreatePaymentIntentRequest.body_currency b = Given c ->
               c <> "" -> IntentRecord.currency r = c).
Proof.
  unfold CreatePaymentIntentRequest.validate.
  destruct (CreatePaymentIntentRequest.method_of_string _) as [m|]; [|done].
  intros [= <-].
  eexists _, _, _. split; [apply run_create_payment_intent|].
  split.
  { unfold intent_at. cbn. rewrite lookup_insert_eq.
    by rewrite list_lookup_middle. }
  split; [done|]. cbn.
  repeat split.
  - by intros [-> | ->].
  - by intros [-> | [-> | ->]].
  - by intros a ->.
  - intros c -> Hc. by destruct c.
Qed.

Lemma create_defaults_witness :
  exists (intent : PaymentIntent.t),
    (run demo_clock demo_entropy (create_payment_intent demo_payload)
         initial_world).1 = Returned intent /\
    PaymentIntent.amount intent = 100%float /\
    PaymentIntent.currency intent = "INR".
Proof.
  destruct (create_defaults demo_clock demo_entropy initial_world
              (CreatePaymentIntentRequest.mk_body "ord-1" "card" Absent Absent)
              demo_payload)
    as (intent & w' & r & Hrun & _ & <- & Hamount & Hcurrency & _).
  - reflexivity.
  - exists (PaymentIntent_of r). rewrite Hrun. cbn.
    split; [reflexivity|]. split; [apply Hamount|apply Hcurrency]; by left.
Defined.

(** C10. An event built by the request model has one of the five
    literal types, so the lookup in [status_map] finds a status and the
    handler cannot raise 400; when the handler does raise 400, the type
    is none of the literals and no body validates to that event. *)
Theorem validated_event_never_unsupported
    (clock : nat -> datetime) (entropy : nat -> UUID)
    (w : World) (event : WebhookEvent.t) :
  ((exists b, WebhookEvent.validate b = Some event) ->
   is_Some (dict_get status_map (WebhookEvent.type event)) /\
   forall e, (run clock entropy (payment_webhook event) w).1 = Raised e ->
             status_code e <> 400) /\
  ((run clock entropy (payment_webhook event) w).1
     = Raised (mkHTTPException 400 "Unsupported event type") ->
   forall b, WebhookEvent.validate b <> Some event).
Proof.
  assert (Hvalid : forall b, WebhookEvent.validate b = Some event ->
            is_Some (dict_get status_map (WebhookEvent.type event))).
  { intros b. unfold WebhookEvent.validate.
    destruct (existsb _ _) eqn:Hex; [|done]. intros [= <-]. cbn.
    apply existsb_exists in Hex as (ty & Hin & Heq).
    apply String.eqb_eq in Heq. subst ty.
    destruct (dict_get status_map _) eqn:Hget; [done|].
    by apply dict_get_status_map_None in Hget. }
  rewrite run_payment_webhook. split.
  - intros (b & Hb). specialize (Hvalid b Hb). split; [done|].
    destruct Hvalid as [s ->]. intros e.
    destruct (PAYMENT_STORE w !! _) as [l|]; cbn.
    + by destruct (heap w !! l).
    + by intros [= <-].
  - intros Hraise b Hb. destruct (Hvalid b Hb) as [s Hs].
    rewrite Hs in Hraise.
    destruct (PAYMENT_STORE w !! _) as [l|]; cbn in Hraise; [|done].
    by destruct (heap w !! l).
Qed.

Lemma validated_event_never_unsupported_witness :
  is_Some
    (dict_get status_map
       (WebhookEvent.type
          (WebhookEvent.mk "payment_intent.refunded" "no-such-id" None None))).
Proof.
  refine (proj1 (proj1 (validated_event_never_unsupported demo_clock
                          demo_entropy demo_world
                          (WebhookEvent.mk "payment_intent.refunded"
                             "no-such-id" None None)) _)).
  exists (WebhookEvent.mk_body "payment_intent.refunded" "no-such-id"
            Absent Absent).
  reflexivity.
Defined.

(** ** Rendering of UUIDs *)

Lemma hex_digit_inj (a b : N) :
  (a < 16)%N -> (b < 16)%N -> hex_digit a = hex_digit b -> a = b.
Proof.
  intros Ha Hb. rewrite <- (N2Nat.id a), <- (N2Nat.id b).
  assert (Hx : N.to_nat a < 16) by lia.
  assert (Hy : N.to_nat b < 16) by lia.
  revert Hx Hy. generalize (N.to_nat a) as x. generalize (N.to_nat b) as y.
  intros y x Hx Hy.
  do 16 (destruct x as [|x];
         [do 16 (destruct y as [|y];
                 [cbn; intros Heq; first [reflexivity|discriminate Heq]|]);
          lia|]).
  lia.
Qed.

Lemma hex_fixed_length (w : nat) (x : N) (acc : string) :
  String.length (hex_fixed w x acc) = w + String.length acc.
Proof.
  revert x acc. induction w as [|w IH]; intros x acc; cbn; [done|].
  rewrite IH. cbn. lia.
Qed.

Lemma hex_fixed_inj (w : nat) (x y : N) (a b : string) :
  String.length a = String.length b ->
  hex_fixed w x a = hex_fixed w y b ->
  (x mod 16 ^ N.of_nat w = y mod 16 ^ N.of_nat w)%N /\ a = b.
Proof.
  revert x y a b. induction w as [|w IH]; intros x y a b Hlen Heq.
  - cbn in Heq. split; [|done]. by rewrite !N.mod_1_r.
  - cbn [hex_fixed] in Heq. apply IH in Heq as [Hhigh Hacc]; [|cbn; lia].
    injection Hacc as Hdigit ->. split; [|done].
    apply hex_digit_inj in Hdigit; [|by apply N.mod_lt ..].
    rewrite Nat2N.inj_succ, N.pow_succ_r'.
    rewrite !N.Div0.mod_mul_r. lia.
Qed.

Lemma UUID_hex_length (u : UUID) : String.length (UUID_hex u) = 32.
Proof. unfold UUID_hex. by rewrite hex_fixed_length. Qed.

Lemma UUID_hex_inj (u v : UUID) :
  (u < 2 ^ 128)%N -> (v < 2 ^ 128)%N -> UUID_hex u = UUID_hex v -> u = v.
Proof.
  intros Hu Hv Heq. apply hex_fixed_inj in Heq as [Heq _]; [|done].
  change (16 ^ N.of_nat 32)%N with (2 ^ 128)%N in Heq.
  by rewrite !N.mod_small in Heq.
Qed.

Lemma grouping_inj (h h' : string) :
  String.length h = 32 -> String.length h' = 32 ->
  substring 0 8 h +:+ "-" +:+ substring 8 4 h +:+ "-" +:+
  substring 12 4 h +:+ "-" +:+ substring 16 4 h +:+ "-" +:+
  substring 20 12 h
  =
  substring 0 8 h' +:+ "-" +:+ substring 8 4 h' +:+ "-" +:+
  substring 12 4 h' +:+ "-" +:+ substring 16 4 h' +:+ "-" +:+
  substring 20 12 h' ->
  h = h'.
Proof.
  intros Hh Hh'.
  do 32 (destruct h as [|? h]; [discriminate Hh|]).
  destruct h; [|discriminate Hh].
  do 32 (destruct h' as [|? h']; [discriminate Hh'|]).
  destruct h'; [|discriminate Hh'].
  cbn. intros [=]. by subst.
Qed.

Lemma UUID_str_inj (u v : UUID) :
  (u < 2 ^ 128)%N -> (v < 2 ^ 128)%N -> UUID_str u = UUID_str v -> u = v.
Proof.
  intros Hu Hv Heq. apply UUID_hex_inj; [done ..|].
  apply grouping_inj; [apply UUID_hex_length ..|exact Heq].
Qed.

(** ** Invariants of the worlds a process can be in *)

Section Invariants.
Variable clock : nat -> datetime.
Variable entropy : nat -> UUID.

Lemma serve_invariant (P : World -> Prop) :
  (forall w req, P w -> P (run clock entropy (handle req) w).2) ->
  forall reqs w, P w -> P (serve clock entropy reqs w).2.
Proof.
  intros Hstep reqs. induction reqs as [|req reqs IH]; intros w Hw; [done|].
  cbn. specialize (Hstep w req Hw).
  destruct (run clock entropy (handle req) w) as [o w1]. cbn in Hstep.
  specialize (IH w1 Hstep).
  destruct (serve clock entropy reqs w1) as [os w2]. done.
Qed.

Lemma world_after_invariant (P : World -> Prop) :
  P initial_world ->
  (forall w req, P w -> P (run clock entropy (handle req) w).2) ->
  forall reqs, P (world_after clock entropy reqs).
Proof.
  intros H0 Hstep reqs. unfold world_after. by apply serve_invariant.
Qed.

Lemma wf_world_initial : wf_world initial_world.
Proof. repeat split; intros *; by rewrite ?lookup_empty. Qed.

Lemma wf_world_create (payload : CreatePaymentIntentRequest.t) (w : World) :
  wf_world w ->
  wf_world (run clock entropy (create_payment_intent payload) w).2.
Proof.
  intros (Hlive & Hinj & Hid). rewrite run_create_payment_intent. cbn.
  set (key0 := UUID_str (entropy (uuid_draws w))).
  repeat split; cbn.
  - intros key l. rewrite length_app. cbn.
    destruct (decide (key0 = key)) as [->|Hne].
    + rewrite lookup_insert_eq. intros [= <-]. lia.
    + rewrite lookup_insert_ne by done. intros H%Hlive. lia.
  - intros key1 key2 l.
    destruct (decide (key0 = key1)) as [<-|Hne1];
      destruct (decide (key0 = key2)) as [<-|Hne2]; [done|..];
      rewrite ?lookup_insert_eq, ?lookup_insert_ne by done.
    + intros [= <-] H%Hlive. lia.
    + intros H%Hlive [= <-]. lia.
    + apply Hinj.
  - intros key l r.
    destruct (decide (key0 = key)) as [<-|Hne].
    + rewrite lookup_insert_eq. intros [= <-].
      rewrite list_lookup_middle by done. by intros [= <-].
    + rewrite lookup_insert_ne by done. intros Hkey.
      rewrite lookup_app_l by eauto. by apply Hid.
Qed.

Lemma wf_world_webhook (event : WebhookEvent.t) (w : World) :
  wf_world w -> wf_world (run clock entropy (payment_webhook event) w).2.
Proof.
  intros Hwf. rewrite run_payment_webhook.
  destruct (PAYMENT_STORE w !! _) as [l|] eqn:Hl; [|done].
  destruct (dict_get _ _) as [s|]; [|done]. cbn zeta.
  assert (Hw' : wf_world
            (mkWorld (<[WebhookEvent.paymentId event := l]> (PAYMENT_STORE w))
               (alter (IntentRecord.set_updatedAt (clock (clock_reads w))) l
                  (alter (IntentRecord.set_status s) l (heap w)))
               (S (clock_reads w)) (uuid_draws w))).
  { rewrite insert_id by done.
    destruct Hwf as (Hlive & Hinj & Hid). repeat split; cbn.
    - intros key l'. rewrite !length_alter. apply Hlive.
    - apply Hinj.
    - intros key l' r Hkey.
      destruct (decide (l = l')) as [<-|Hne].
      + rewrite !list_lookup_alter_eq.
        destruct (heap w !! l) as [r0|] eqn:Hr0; [|done].
        intros [= <-]. cbn. by eapply Hid.
      + rewrite !list_lookup_alter_ne by done. by apply Hid. }
  by destruct (heap w !! l).
Qed.

Lemma wf_world_get (paymentId : string) (w : World) :
  wf_world w -> wf_world (run clock entropy (get_payment paymentId) w).2.
Proof.
  intros Hwf. rewrite run_get_payment.
  destruct (PAYMENT_STORE w !! _) as [l|]; [|done].
  by destruct (heap w !! l).
Qed.

Lemma wf_world_handle (req : Request) (w : World) :
  wf_world w -> wf_world (run clock entropy (handle req) w).2.
Proof.
  destruct req; [apply wf_world_create|apply wf_world_get|apply wf_world_webhook].
Qed.

Lemma wf_world_after (reqs : list Request) :
  wf_world (world_after clock entropy reqs).
Proof.
  apply world_after_invariant; [apply wf_world_initial|].
  intros w req. apply wf_world_handle.
Qed.

(** No handler call ends in a read through a dead reference. *)
Lemma run_handle_not_dangling (req : Request) (w : World) :
  wf_world w -> (run clock entropy (handle req) w).1 <> Dangling.
Proof.
  intros (Hlive & _ & _). destruct req as [payload|paymentId|event]; cbn [handle].
  - by rewrite run_create_payment_intent.
  - rewrite run_get_payment.
    destruct (PAYMENT_STORE w !! _) as [l|] eqn:Hl; [|done].
    apply Hlive, lookup_lt_is_Some in Hl as [r ->]. done.
  - rewrite run_payment_webhook.
    destruct (PAYMENT_STORE w !! _) as [l|] eqn:Hl; [|done].
    destruct (dict_get _ _); [|done]. cbn zeta.
    apply Hlive, lookup_lt_is_Some in Hl as [r ->]. done.
Qed.

End Invariants.

(** ** Amounts and timestamps of stored intents *)

Section StoredFields.
Variable clock : nat -> datetime.
Variable entropy : nat -> UUID.

Lemma heap_amounts_nonneg_handle (req : Request) (w : World) :
  amount_given_nonneg req = true ->
  heap_amounts_nonneg w ->
  heap_amounts_nonneg (run clock entropy (handle req) w).2.
Proof.
  intros Hreq Hw. destruct req as [payload|paymentId|event]; cbn [handle].
  - rewrite run_create_payment_intent. cbn. intros l r Hl.
    apply lookup_app_Some in Hl as [Hl|[_ Hl]]; [by eapply Hw|].
    apply list_lookup_singleton_Some in Hl as [_ <-]. cbn.
    cbn in Hreq. by destruct (CreatePaymentIntentRequest.amount payload).
  - rewrite run_get_payment.
    destruct (PAYMENT_STORE w !! _) as [l|]; [|done].
    by destruct (heap w !! l).
  - rewrite run_payment_webhook.
    destruct (PAYMENT_STORE w !! _) as [l|]; [|done].
    destruct (dict_get _ _) as [s|]; [|done]. cbn zeta.
    assert (Hw' : forall l' r,
              alter (IntentRecord.set_updatedAt (clock (clock_reads w))) l
                (alter (IntentRecord.set_status s) l (heap w)) !! l' = Some r ->
              nonneg (IntentRecord.amount r) = true).
    { intros l' r. destruct (decide (l = l')) as [<-|Hne].
      - rewrite !list_lookup_alter_eq.
        destruct (heap w !! l) as [r0|] eqn:Hr0; [|done].
        intros [= <-]. cbn. by eapply Hw.
      - rewrite !list_lookup_alter_ne by done. apply Hw. }
    by destruct (heap w !! l).
Qed.

Lemma heap_amounts_nonneg_serve (reqs : list Request) (w : World) :
  forallb amount_given_nonneg reqs = true ->
  heap_amounts_nonneg w ->
  heap_amounts_nonneg (serve clock entropy reqs w).2.
Proof.
  revert w. induction reqs as [|req reqs IH]; intros w Hreqs Hw; [done|].
  cbn in Hreqs. apply andb_prop in Hreqs as [Hreq Hreqs].
  pose proof (heap_amounts_nonneg_handle req w Hreq Hw) as H1.
  specialize (IH (run clock entropy (handle req) w).2 Hreqs H1).
  cbn [serve]. destruct (run clock entropy (handle req) w) as [o w1].
  cbn in IH. by destruct (serve clock entropy reqs w1).
Qed.

Lemma heap_times_ordered_handle (req : Request) (w : World) :
  clock_monotone clock ->
  heap_times_ordered clock w ->
  heap_times_ordered clock (run clock entropy (handle req) w).2.
Proof.
  intros Hmono Hw. destruct req as [payload|paymentId|event]; cbn [handle].
  - rewrite run_create_payment_intent. intros l r Hl. cbn in *.
    apply lookup_app_Some in Hl as [Hl|[_ Hl]].
    + destruct (Hw l r Hl) as (Hle & j & Hj & Hc). split; [done|].
      exists j. split; [lia|done].
    + apply list_lookup_singleton_Some in Hl as [_ <-]. cbn.
      split; [lia|]. exists (clock_reads w). split; [lia|done].
  - rewrite run_get_payment.
    destruct (PAYMENT_STORE w !! _) as [l|]; [|done].
    by destruct (heap w !! l).
  - rewrite run_payment_webhook.
    destruct (PAYMENT_STORE w !! _) as [l|]; [|done].
    destruct (dict_get _ _) as [s|]; [|done]. cbn zeta.
    assert (Hw' : heap_times_ordered clock
              (mkWorld (<[WebhookEvent.paymentId event := l]> (PAYMENT_STORE w))
                 (alter (IntentRecord.set_updatedAt (clock (clock_reads w))) l
                    (alter (IntentRecord.set_status s) l (heap w)))
                 (S (clock_reads w)) (uuid_draws w))).
    { intros l' r. cbn. destruct (decide (l = l')) as [<-|Hne].
      - rewrite !list_lookup_alter_eq.
        destruct (heap w !! l) as [r0|] eqn:Hr0; [|done].
        intros [= <-]. cbn.
        destruct (Hw l r0 Hr0) as (_ & j & Hj & ->). split.
        + apply Hmono. lia.
        + exists j. split; [lia|done].
      - rewrite !list_lookup_alter_ne by done. intros Hl'.
        destruct (Hw l' r Hl') as (Hle & j & Hj & Hc). split; [done|].
        exists j. split; [lia|done]. }
    by destruct (heap w !! l).
Qed.

Lemma heap_times_ordered_after (reqs : list Request) :
  clock_monotone clock ->
  heap_times_ordered clock (world_after clock entropy reqs).
Proof.
  intros Hmono. apply world_after_invariant.
  - intros l r. cbn. by rewrite lookup_nil.
  - intros w req. by apply heap_times_ordered_handle.
Qed.

End StoredFields.

(** C6, as the code has it. When every creation is given no amount or a
    non-negative one, every stored intent has a non-negative amount at
    every point of the process. *)
Theorem amount_nonneg_if_given_nonneg
    (clock : nat -> datetime) (entropy : nat -> UUID) (reqs : list Request) :
  forallb amount_given_nonneg reqs = true ->
  amounts_nonneg (world_after clock entropy reqs).
Proof.
  intros Hreqs key r Hat. apply intent_at_unfold in Hat as (l & _ & Hr).
  eapply (heap_amounts_nonneg_serve clock entropy reqs initial_world);
    [done| |exact Hr].
  intros l' r'. cbn. by rewrite lookup_nil.
Qed.

Lemma amount_nonneg_if_given_nonneg_witness :
  amounts_nonneg
    (world_after demo_clock demo_entropy
       [ CreateIntent demo_payload;
         CreateIntent
           (CreatePaymentIntentRequest.mk "ord-2" UPI (Some 250.5%float) None);
         ApplyWebhookEvent
           (WebhookEvent.mk "payment_intent.succeeded" demo_id None None) ]).
Proof.
  apply amount_nonneg_if_given_nonneg. reflexivity.
Defined.

(** C6, as stated, fails: a creation given the amount -5.0 stores an
    intent whose amount is negative. *)
Lemma negative_amount_is_stored :
  ~ amounts_nonneg
      (world_after demo_clock demo_entropy
         [ CreateIntent
             (CreatePaymentIntentRequest.mk "ord-1" CARD (Some (-5)%float)
                (Some "INR")) ]).
Proof.
  intros H.
  specialize (H demo_id
    (created_record demo_clock demo_entropy
       (CreatePaymentIntentRequest.mk "ord-1" CARD (Some (-5)%float)
          (Some "INR")) initial_world)).
  assert (Hneg : nonneg (-5)%float = false) by reflexivity.
  cbn [created_record IntentRecord.amount CreatePaymentIntentRequest.amount] in H.
  rewrite Hneg in H. discriminate H. vm_compute. reflexivity.
Qed.

(** The handlers take the time as the clock gives it. With a clock set
    back between a creation and a webhook call on the created intent, the
    stored record ends with [updatedAt] before [createdAt]. *)
Lemma clock_set_back_breaks_the_order :
  exists r,
    intent_at
      (world_after demo_clock_set_back demo_entropy
         [CreateIntent demo_payload; ApplyWebhookEvent demo_succeeded])
      demo_id = Some r /\
    IntentRecord.status r = SUCCEEDED /\
    IntentRecord.createdAt r = 10%Z /\
    IntentRecord.updatedAt r = 5%Z /\
    ~ (IntentRecord.createdAt r <= IntentRecord.updatedAt r)%Z.
Proof.
  eexists. split; [vm_compute; reflexivity|].
  cbn. repeat split. lia.
Qed.

(** C7. With a clock that never runs backwards, every stored intent has
    [createdAt <= updatedAt] at every point of the process: a creation
    returns equal timestamps, and a successful webhook call sets
    [updatedAt] to the clock reading of the call, which is not before
    [createdAt]. *)
Theorem updatedAt_not_before_createdAt
    (clock : nat -> datetime) (entropy : nat -> UUID) (reqs : list Request) :
  clock_monotone clock ->
  let w := world_after clock entropy reqs in
  (forall key r, intent_at w key = Some r ->
     (IntentRecord.createdAt r <= IntentRecord.updatedAt r)%Z) /\
  (forall payload intent w',
     run clock entropy (create_payment_intent payload) w
       = (Returned intent, w') ->
     PaymentIntent.createdAt intent = PaymentIntent.updatedAt intent) /\
  (forall event intent w',
     run clock entropy (payment_webhook event) w = (Returned intent, w') ->
     PaymentIntent.updatedAt intent = clock (clock_reads w) /\
     (PaymentIntent.createdAt intent <= PaymentIntent.updatedAt intent)%Z).
Proof.
  intros Hmono w.
  pose proof (heap_times_ordered_after clock entropy reqs Hmono) as Hw.
  fold w in Hw. split; [|split].
  - intros key r Hat. apply intent_at_unfold in Hat as (l & _ & Hr).
    by destruct (Hw l r Hr).
  - intros payload intent w'. rewrite run_create_payment_intent.
    by intros [= <- _].
  - intros event intent w'. rewrite run_payment_webhook.
    destruct (PAYMENT_STORE w !! _) as [l|]; [|done].
    destruct (dict_get _ _) as [s|]; [|done]. cbn zeta.
    destruct (heap w !! l) as [r|] eqn:Hr; [|done].
    intros [= <- _]. cbn. split; [done|].
    destruct (Hw l r Hr) as (_ & j & Hj & ->). apply Hmono. lia.
Qed.

Lemma updatedAt_not_before_createdAt_witness :
  exists r,
    intent_at
      (world_after demo_clock demo_entropy
         [ CreateIntent demo_payload;
           ApplyWebhookEvent
             (WebhookEvent.mk "payment_intent.processing" demo_id None None) ])
      demo_id = Some r /\
    (IntentRecord.createdAt r <= IntentRecord.updatedAt r)%Z.
Proof.
  exists (IntentRecord.set_updatedAt (demo_clock 1)
            (IntentRecord.set_status PROCESSING demo_record)).
  assert (Hat : intent_at
            (world_after demo_clock demo_entropy
               [ CreateIntent demo_payload;
                 ApplyWebhookEvent
                   (WebhookEvent.mk "payment_intent.processing" demo_id
                      None None) ])
            demo_id
          = Some (IntentRecord.set_updatedAt (demo_clock 1)
                    (IntentRecord.set_status PROCESSING demo_record)))
    by (vm_compute; reflexivity).
  split; [exact Hat|].
  refine (proj1 (updatedAt_not_before_createdAt demo_clock demo_entropy _ _)
            _ _ Hat).
  intros i j Hij. unfold demo_clock. lia.
Defined.

(** C8. A successful webhook call changes one record, the one stored
    under [paymentId], and on it only [status] and [updatedAt]; the store
    keeps its keys and references, every intent under another id is as
    before, and the outcome and the world after the call are the same
    whatever [orderId] and [metadata] the event carries. *)
Theorem webhook_frame
    (clock : nat -> datetime) (entropy : nat -> UUID) (reqs : list Request)
    (event : WebhookEvent.t) (intent : PaymentIntent.t) (w' : World) :
  let w := world_after clock entropy reqs in
  let paymentId := WebhookEvent.paymentId event in
  run clock entropy (payment_webhook event) w = (Returned intent, w') ->
  (exists r r',
     intent_at w paymentId = Some r /\
     intent_at w' paymentId = Some r' /\
     IntentRecord.id r' = IntentRecord.id r /\
     IntentRecord.orderId r' = IntentRecord.orderId r /\
     IntentRecord.amount r' = IntentRecord.amount r /\
     IntentRecord.currency r' = IntentRecord.currency r /\
     IntentRecord.provider r' = IntentRecord.provider r /\
     IntentRecord.clientSecret r' = IntentRecord.clientSecret r /\
     IntentRecord.createdAt r' = IntentRecord.createdAt r) /\
  (forall key, key <> paymentId -> intent_at w' key = intent_at w key) /\
  PAYMENT_STORE w' = PAYMENT_STORE w /\
  length (heap w') = length (heap w) /\
  (forall orderId metadata,
     run clock entropy
       (payment_webhook
          (WebhookEvent.mk (WebhookEvent.type event) paymentId orderId metadata))
       w
     = (Returned intent, w')).
Proof.
  intros w paymentId.
  pose proof (wf_world_after clock entropy reqs) as (_ & Hinj & _).
  fold w in Hinj.
  assert (Hsame : forall orderId metadata,
            run clock entropy
              (payment_webhook
                 (WebhookEvent.mk (WebhookEvent.type event) paymentId
                    orderId metadata)) w
            = run clock entropy (payment_webhook event) w).
  { intros. by rewrite !run_payment_webhook. }
  rewrite run_payment_webhook. fold paymentId.
  destruct (PAYMENT_STORE w !! paymentId) as [l|] eqn:Hl; [|done].
  destruct (dict_get _ _) as [s|] eqn:Hs; [|done]. cbn zeta.
  destruct (heap w !! l) as [r|] eqn:Hr; [|done].
  intros [= <- <-]. rewrite insert_id by done.
  split; [|split; [|split; [|split]]].
  - exists r, (IntentRecord.set_updatedAt (clock (clock_reads w))
                 (IntentRecord.set_status s r)).
    unfold intent_at. cbn. rewrite Hl, !list_lookup_alter_eq, Hr. done.
  - intros key Hkey. unfold intent_at. cbn.
    destruct (PAYMENT_STORE w !! key) as [l'|] eqn:Hl'; [|done].
    rewrite !list_lookup_alter_ne; [done|..];
      intros ->; apply Hkey; by eapply Hinj.
  - done.
  - cbn. by rewrite !length_alter.
  - intros orderId metadata. rewrite Hsame, run_payment_webhook.
    fold paymentId. rewrite Hl, Hs. cbn zeta. rewrite Hr.
    by rewrite insert_id.
Qed.

Lemma webhook_frame_witness :
  intent_at
    (run demo_clock demo_entropy (payment_webhook demo_failed)
       (world_after demo_clock demo_entropy
          [CreateIntent demo_payload; CreateIntent demo_payload])).2
    (UUID_str (demo_entropy 2))
  = intent_at
      (world_after demo_clock demo_entropy
         [CreateIntent demo_payload; CreateIntent demo_payload])
      (UUID_str (demo_entropy 2)).
Proof.
  set (w := world_after demo_clock demo_entropy
              [CreateIntent demo_payload; CreateIntent demo_payload]).
  assert (Hrun : run demo_clock demo_entropy (payment_webhook demo_failed) w
                 = (Returned (PaymentIntent_of
                      (IntentRecord.set_updatedAt (demo_clock 2)
                         (IntentRecord.set_status FAILED demo_record))),
                    (run demo_clock demo_entropy (payment_webhook demo_failed)
                       w).2)).
  { rewrite (surjective_pairing
               (run demo_clock demo_entropy (payment_webhook demo_failed) w))
      at 1.
    by f_equal. }
  refine (proj1 (proj2 (webhook_frame demo_clock demo_entropy
                          [CreateIntent demo_payload; CreateIntent demo_payload]
                          demo_failed _ _ Hrun)) _ _).
  intros Heq. vm_compute in Heq. discriminate Heq.
Defined.

(** ** Identifiers handed out by successive creations *)

Section Identifiers.
Variable clock : nat -> datetime.
Variable entropy : nat -> UUID.

Lemma run_handle_not_create (req : Request) (w : World) :
  is_create req = false ->
  uuid_draws (run clock entropy (handle req) w).2 = uuid_draws w /\
  PAYMENT_STORE (run clock entropy (handle req) w).2 = PAYMENT_STORE w.
Proof.
  destruct req as [payload|paymentId|event]; [done|..]; intros _; cbn [handle].
  - rewrite run_get_payment.
    destruct (PAYMENT_STORE w !! _) as [l|]; [|done].
    by destruct (heap w !! l).
  - rewrite run_payment_webhook.
    destruct (PAYMENT_STORE w !! _) as [l|] eqn:Hl; [|done].
    destruct (dict_get _ _) as [s|]; [|done]. cbn zeta.
    destruct (heap w !! l); cbn; by rewrite insert_id.
Qed.

Lemma seq_head_shift {A} (f : nat -> A) (n : nat) :
  f <$> seq 0 (S n) = f 0 :: ((f ∘ S) <$> seq 0 n).
Proof. cbn. by rewrite <- fmap_S_seq, <- list_fmap_compose. Qed.

(** Served from [w], the creations among [reqs] hand out the ids drawn
    at every second position of the generator from [uuid_draws w] on. *)
Lemma serve_created_ids (reqs : list Request) (w : World) :
  created_ids reqs (serve clock entropy reqs w).1
    = (fun j => UUID_str (entropy (uuid_draws w + 2 * j)))
        <$> seq 0 (count_creates reqs) /\
  uuid_draws (serve clock entropy reqs w).2
    = uuid_draws w + 2 * count_creates reqs /\
  dom (PAYMENT_STORE (serve clock entropy reqs w).2)
    = list_to_set ((fun j => UUID_str (entropy (uuid_draws w + 2 * j)))
                     <$> seq 0 (count_creates reqs))
      ∪ dom (PAYMENT_STORE w).
Proof.
  revert w. induction reqs as [|req reqs IH]; intros w.
  { cbn. split; [reflexivity|]. split; [lia|]. by rewrite (left_id_L ∅ (∪)). }
  cbn [serve]. destruct (is_create req) eqn:Hreq.
  - destruct req as [payload| |]; try discriminate Hreq. cbn [handle].
    rewrite run_create_payment_intent.
    match goal with
    | |- context [serve clock entropy reqs ?w1] =>
        specialize (IH w1); destruct (serve clock entropy reqs w1) as [os w2]
    end.
    cbn [fst snd uuid_draws PAYMENT_STORE] in IH.
    destruct IH as (Hids & Hdraws & Hdom).
    unfold count_creates. rewrite filter_cons_True by done.
    cbn [length]. fold (count_creates reqs).
    rewrite seq_head_shift.
    assert (Hfun : (fun j => UUID_str (entropy (S (S (uuid_draws w)) + 2 * j)))
                   <$> seq 0 (count_creates reqs)
                 = ((fun j => UUID_str (entropy (uuid_draws w + 2 * j))) ∘ S)
                   <$> seq 0 (count_creates reqs)).
    { apply list_fmap_ext. intros _ j _. cbn. do 2 f_equal. lia. }
    rewrite Hfun in Hids, Hdom.
    cbn [created_ids fst snd PaymentIntent_of PaymentIntent.id created_record
         IntentRecord.id].
    rewrite Nat.mul_0_r, Nat.add_0_r, Hids, Hdraws, Hdom, dom_insert_L.
    split; [reflexivity|]. split; [lia|].
    generalize (UUID_str (entropy (uuid_draws w))) as key0.
    generalize (((fun j => UUID_str (entropy (uuid_draws w + 2 * j))) ∘ S)
                  <$> seq 0 (count_creates reqs)) as keys.
    intros keys key0. rewrite list_to_set_cons.
    rewrite (assoc_L (∪)). f_equal. apply (comm_L (∪)).
  - pose proof (run_handle_not_create req w Hreq) as [Hd Hs].
    destruct (run clock entropy (handle req) w) as [o w1]. cbn in Hd, Hs.
    specialize (IH w1). destruct (serve clock entropy reqs w1) as [os w2].
    cbn [fst snd] in IH. destruct IH as (Hids & Hdraws & Hdom).
    unfold count_creates. rewrite filter_cons_False by (by rewrite Hreq).
    fold (count_creates reqs). rewrite <- Hd, <- Hs.
    cbn [fst snd]. split; [|done]. rewrite <- Hids.
    destruct req; [discriminate Hreq|by destruct o ..].
Qed.

End Identifiers.

(** ** Calls in flight, one action at a time *)

Section Steps.
Variable clock : nat -> datetime.
Variable entropy : nat -> UUID.

Lemma step_webhook_at
    (event : WebhookEvent.t) (l : loc) (s : PaymentStatus)
    (ph : webhook_phase) (w : World) :
  PAYMENT_STORE w !! WebhookEvent.paymentId event = Some l ->
  dict_get status_map (WebhookEvent.type event) = Some s ->
  is_Some (heap w !! l) ->
  (step clock entropy (webhook_at clock event l s ph) w).1
    = webhook_at clock event l s (webhook_next w l ph).
Proof.
  intros Hl Hs [r Hr]. destruct ph as [| | |j|j|j|j r']; try reflexivity.
  - cbn [webhook_at webhook_next]. unfold payment_webhook. rewrite Hs.
    cbn. rewrite Hl. cbn. by rewrite falsy_status_Some.
  - cbn. by rewrite Hr.
Qed.
End Steps.

(** ** A pool of webhook calls on one intent *)

Section WebhookPoolFacts.
Variable clock : nat -> datetime.
Variable entropy : nat -> UUID.

Lemma step_webhook_effect
    (event : WebhookEvent.t) (l : loc) (s : PaymentStatus)
    (ph : webhook_phase) (w : World) :
  PAYMENT_STORE w !! WebhookEvent.paymentId event = Some l ->
  dict_get status_map (WebhookEvent.type event) = Some s ->
  is_Some (heap w !! l) ->
  step clock entropy (webhook_at clock event l s ph) w
    = (webhook_at clock event l s (webhook_next w l ph),
       webhook_effect clock event l s ph w).
Proof.
  intros Hl Hs Hr.
  rewrite <- (step_webhook_at clock entropy event l s ph w Hl Hs Hr).
  destruct Hr as [r Hr].
  destruct ph as [| | |j|j|j|j r']; try reflexivity.
  cbn. by rewrite Hr.
Qed.

End WebhookPoolFacts.

Section WebhookPoolInvariant.
Variable clock : nat -> datetime.
Variable entropy : nat -> UUID.
Variable w0 : World.
Variable paymentId : string.
Variable l : loc.
Variable r0 : IntentRecord.t.
Variable jobs : list (WebhookEvent.t * PaymentStatus).

Hypothesis jobs_mapped :
  Forall (fun job =>
            WebhookEvent.paymentId job.1 = paymentId /\
            dict_get status_map (WebhookEvent.type job.1) = Some job.2) jobs.
Hypothesis stored : PAYMENT_STORE w0 !! paymentId = Some l.

Lemma status_settled_keep
    (r r' : IntentRecord.t) (phs : list webhook_phase)
    (i : nat) (ph ph' : webhook_phase) :
  phs !! i = Some ph ->
  (2 <= webhook_rank ph -> 2 <= webhook_rank ph') ->
  (webhook_rank ph < 2 -> webhook_rank ph' < 2) ->
  IntentRecord.status r' = IntentRecord.status r ->
  status_settled r0 jobs r phs ->
  status_settled r0 jobs r' (<[i := ph']> phs).
Proof.
  intros Hph Hup Hlow Hsame [(i0 & job & ph0 & Hjob & Hph0 & Hrank & Hst)|[Hall Hst]].
  - left. destruct (decide (i0 = i)) as [->|Hne].
    + exists i, job, ph'. rewrite Hph in Hph0. injection Hph0 as <-.
      rewrite list_lookup_insert_eq by (by eapply lookup_lt_Some).
      repeat split; [done|auto|congruence].
    + exists i0, job, ph0. rewrite list_lookup_insert_ne by done.
      repeat split; [done..|congruence].
  - right. split; [|congruence]. intros i1 ph1 Hph1.
    apply list_lookup_insert_Some in Hph1 as [(<- & <- & _)|[_ Hph1]].
    + apply Hlow. by eapply Hall.
    + by eapply Hall.
Qed.

Lemma stamp_settled_keep
    (r r' : IntentRecord.t) (phs : list webhook_phase)
    (i : nat) (ph ph' : webhook_phase) :
  phs !! i = Some ph ->
  (4 <= webhook_rank ph -> 4 <= webhook_rank ph') ->
  (webhook_rank ph < 4 -> webhook_rank ph' < 4) ->
  (forall j, webhook_reading ph = Some j -> webhook_reading ph' = Some j) ->
  IntentRecord.updatedAt r' = IntentRecord.updatedAt r ->
  stamp_settled clock r0 r phs ->
  stamp_settled clock r0 r' (<[i := ph']> phs).
Proof.
  intros Hph Hup Hlow Hread Hsame [(i0 & ph0 & j & Hph0 & Hrank & Hj & Hst)|[Hall Hst]].
  - left. destruct (decide (i0 = i)) as [->|Hne].
    + exists i, ph', j. rewrite Hph in Hph0. injection Hph0 as <-.
      rewrite list_lookup_insert_eq by (by eapply lookup_lt_Some).
      repeat split; [auto..|congruence].
    + exists i0, ph0, j. rewrite list_lookup_insert_ne by done.
      repeat split; [done..|congruence].
  - right. split; [|congruence]. intros i1 ph1 Hph1.
    apply list_lookup_insert_Some in Hph1 as [(<- & <- & _)|[_ Hph1]].
    + apply Hlow. by eapply Hall.
    + by eapply Hall.
Qed.

Lemma webhook_pool_step (c : Config) (phs : list webhook_phase) (i : nat) :
  webhook_pool_inv clock w0 l r0 jobs c phs ->
  exists phs',
    webhook_pool_inv clock w0 l r0 jobs (sched_step clock entropy c i) phs'.
Proof.
  intros (HT & Hlen & HS & Hclk & Hread & (r & Hr & Hid & Hst & Hsp) & Hdone).
  unfold sched_step. destruct (threads c !! i) as [p|] eqn:Hp.
  2:{ exists phs. do 5 (split; [done|]). split; [by exists r|done]. }
  rewrite HT in Hp.
  apply lookup_zip_with_Some in Hp as (job & ph & -> & Hjob & Hph).
  pose proof (Forall_lookup_1 _ _ _ _ jobs_mapped Hjob) as [Hpid Hmap].
  rewrite (step_webhook_effect clock entropy job.1 l job.2 ph (world c));
    [|by rewrite Hpid, HS|done|by rewrite Hr].
  exists (<[i := webhook_next (world c) l ph]> phs).
  assert (HT' : <[i := webhook_at clock job.1 l job.2 (webhook_next (world c) l ph)]>
                  (threads c)
                = zip_with (fun job ph => webhook_at clock job.1 l job.2 ph) jobs
                    (<[i := webhook_next (world c) l ph]> phs)).
  { pose proof (insert_zip_with
                  (fun job ph => webhook_at clock job.1 l job.2 ph) jobs phs i
                  job (webhook_next (world c) l ph)) as Hz.
    rewrite (list_insert_id jobs i job Hjob) in Hz. rewrite HT. exact Hz. }
  assert (Hlen' : length (<[i := webhook_next (world c) l ph]> phs) = length jobs)
    by (by rewrite length_insert).
  assert (Hi : i < length phs) by (by eapply lookup_lt_Some).
  split; [exact HT'|]. split; [exact Hlen'|]. cbn [world threads].
  clear HT' Hlen'.
  (* facts about calls that had already returned *)
  assert (Hdone_old : forall w', clock_reads (world c) <= clock_reads w' ->
            forall i1 j r', i1 <> i -> phs !! i1 = Some (WDone j r') ->
            same_identity r' r0 /\
            (exists i' job, jobs !! i' = Some job /\ IntentRecord.status r' = job.2) /\
            (exists j', clock_reads w0 <= j' < clock_reads w' /\
                        IntentRecord.updatedAt r' = clock j')).
  { intros w' Hw' i1 j r' _ H1. destruct (Hdone i1 j r' H1) as (? & ? & j' & ? & ?).
    split; [done|]. split; [done|]. exists j'. split; [lia|done]. }
  assert (Hread_old : forall w', clock_reads (world c) <= clock_reads w' ->
            forall i1 ph1 j, i1 <> i -> phs !! i1 = Some ph1 ->
            webhook_reading ph1 = Some j ->
            clock_reads w0 <= j < clock_reads w').
  { intros w' Hw' i1 ph1 j _ H1 H2. specialize (Hread i1 ph1 j H1 H2). lia. }
  destruct ph as [| | |j|j|j|j rd]; cbn [webhook_next webhook_effect].
  - (* line 179: the lookup *)
    refine (conj _ (conj _ (conj _ (conj _ _)))); [done..| | |].
    + intros i1 ph1 j Hph1.
      apply list_lookup_insert_Some in Hph1 as [(<- & <- & _)|[Hne Hph1]];
        [done|by eapply Hread].
    + exists r. refine (conj _ (conj _ (conj _ _))); [done..| |].
      * eapply status_settled_keep; [done|cbn; lia..|done|done].
      * eapply stamp_settled_keep; [done|cbn; lia..|done|done|done].
    + intros i1 j r' Hph1.
      apply list_lookup_insert_Some in Hph1 as [(<- & [=] & _)|[Hne Hph1]].
      by eapply Hdone.
  - (* line 195: the status write *)
    cbn. refine (conj _ (conj _ (conj _ (conj _ _)))); [done..| | |].
    + intros i1 ph1 j Hph1.
      apply list_lookup_insert_Some in Hph1 as [(<- & <- & _)|[Hne Hph1]];
        [done|by eapply Hread].
    + exists (IntentRecord.set_status job.2 r).
      rewrite list_lookup_alter_eq, Hr.
      refine (conj _ (conj _ (conj _ _))); [done|done| |].
      * left. exists i, job, WMarked.
        rewrite list_lookup_insert_eq by done. by repeat (split; [done|]).
      * eapply stamp_settled_keep; [done|cbn; lia..|done|done|done].
    + intros i1 j r' Hph1.
      apply list_lookup_insert_Some in Hph1 as [(<- & [=] & _)|[Hne Hph1]].
      by eapply Hdone.
  - (* line 196: the clock reading *)
    cbn. refine (conj _ (conj _ (conj _ (conj _ _)))); [done|lia| | |].
    + intros i1 ph1 j Hph1.
      apply list_lookup_insert_Some in Hph1 as [(<- & <- & _)|[Hne Hph1]].
      * cbn. intros [= <-]. lia.
      * intros Hj. specialize (Hread i1 ph1 j Hph1 Hj). lia.
    + exists r. refine (conj _ (conj _ (conj _ _))); [done..| |].
      * eapply status_settled_keep; [done|cbn; lia..|done|done].
      * eapply stamp_settled_keep; [done|cbn; lia..|done|done|done].
    + intros i1 j r' Hph1.
      apply list_lookup_insert_Some in Hph1 as [(<- & [=] & _)|[Hne Hph1]].
      eapply (Hdone_old (mkWorld (PAYMENT_STORE (world c)) (heap (world c))
                           (S (clock_reads (world c))) (uuid_draws (world c))));
        [cbn; lia|done..].
  - (* line 196: the timestamp write *)
    cbn. refine (conj _ (conj _ (conj _ (conj _ _)))); [done..| | |].
    + intros i1 ph1 j1 Hph1.
      apply list_lookup_insert_Some in Hph1 as [(<- & <- & _)|[Hne Hph1]].
      * cbn. intros [= <-]. by eapply Hread.
      * by eapply Hread.
    + exists (IntentRecord.set_updatedAt (clock j) r).
      rewrite list_lookup_alter_eq, Hr.
      refine (conj _ (conj _ (conj _ _))); [done|done| |].
      * eapply status_settled_keep; [done|cbn; lia..|done|done].
      * left. exists i, (WStamped j), j.
        rewrite list_lookup_insert_eq by done. cbn.
        split; [done|]. split; [lia|done].
    + intros i1 j1 r' Hph1.
      apply list_lookup_insert_Some in Hph1 as [(<- & [=] & _)|[Hne Hph1]].
      by eapply Hdone.
  - (* line 200: the store write *)
    cbn. rewrite Hpid, insert_id by (by rewrite HS).
    refine (conj _ (conj _ (conj _ (conj _ _)))); [done..| | |].
    + intros i1 ph1 j1 Hph1.
      apply list_lookup_insert_Some in Hph1 as [(<- & <- & _)|[Hne Hph1]].
      * cbn. intros [= <-]. by eapply Hread.
      * by eapply Hread.
    + exists r. refine (conj _ (conj _ (conj _ _))); [done..| |].
      * eapply status_settled_keep; [done|cbn; lia..|done|done].
      * eapply stamp_settled_keep; [done|cbn; lia..|done|done|done].
    + intros i1 j1 r' Hph1.
      apply list_lookup_insert_Some in Hph1 as [(<- & [=] & _)|[Hne Hph1]].
      by eapply Hdone.
  - (* line 201: the read for the response *)
    rewrite Hr. refine (conj _ (conj _ (conj _ (conj _ _)))); [done..| | |].
    + intros i1 ph1 j1 Hph1.
      apply list_lookup_insert_Some in Hph1 as [(<- & <- & _)|[Hne Hph1]].
      * cbn. intros [= <-]. by eapply Hread.
      * by eapply Hread.
    + exists r. refine (conj _ (conj _ (conj _ _))); [done..| |].
      * eapply status_settled_keep; [done|cbn; lia..|done|done].
      * eapply stamp_settled_keep; [done|cbn; lia..|done|done|done].
    + intros i1 j1 r' Hph1.
      apply list_lookup_insert_Some in Hph1 as [(<- & [= <- <-] & _)|[Hne Hph1]];
        [|by eapply Hdone].
      split; [done|]. split.
      * destruct Hst as [(i0 & job0 & ph0 & Hjob0 & _ & _ & Hs0)|[Hall _]].
        -- by exists i0, job0.
        -- specialize (Hall i _ Hph). cbn in Hall. lia.
      * destruct Hsp as [(i0 & ph0 & j0 & Hph0 & _ & Hj0 & Hs0)|[Hall _]].
        -- exists j0. split; [exact (Hread i0 ph0 j0 Hph0 Hj0)|done].
        -- specialize (Hall i _ Hph). cbn in Hall. lia.
  - (* already returned *)
    rewrite list_insert_id by done.
    do 3 (split; [done|]). split; [by exists r|done].
Qed.

End WebhookPoolInvariant.

Section WebhookPoolRuns.
Variable clock : nat -> datetime.
Variable entropy : nat -> UUID.

Lemma webhook_pool_exec
    (w0 : World) (paymentId : string) (l : loc) (r0 : IntentRecord.t)
    (jobs : list (WebhookEvent.t * PaymentStatus)) (schedule : list nat) :
  Forall (fun job =>
            WebhookEvent.paymentId job.1 = paymentId /\
            dict_get status_map (WebhookEvent.type job.1) = Some job.2) jobs ->
  PAYMENT_STORE w0 !! paymentId = Some l ->
  forall c phs,
    webhook_pool_inv clock w0 l r0 jobs c phs ->
    exists phs',
      webhook_pool_inv clock w0 l r0 jobs (exec clock entropy schedule c) phs'.
Proof.
  intros Hjobs Hstored. unfold exec.
  induction schedule as [|i schedule IH]; intros c phs Hinv; cbn.
  - by exists phs.
  - destruct (webhook_pool_step clock entropy w0 paymentId l r0 jobs
                Hjobs Hstored c phs i Hinv) as [phs1 Hinv1].
    by eapply IH.
Qed.

Lemma webhook_pool_start
    (w0 : World) (l : loc) (r0 : IntentRecord.t)
    (events : list WebhookEvent.t) :
  heap w0 !! l = Some r0 ->
  webhook_pool_inv clock w0 l r0 (webhook_job <$> events)
    (mkConfig w0 (payment_webhook <$> events))
    (replicate (length events) WStart).
Proof.
  intros Hr0. split; [|split; [|split; [|split; [|split; [|split]]]]]; cbn.
  - induction events as [|event events IH]; cbn; [done|]. by rewrite <- IH.
  - by rewrite length_replicate, length_fmap.
  - done.
  - done.
  - intros i ph j [-> _]%lookup_replicate. done.
  - exists r0. split; [done|]. split; [done|]. split; right.
    + split; [|done]. intros i ph [-> _]%lookup_replicate. cbn. lia.
    + split; [|done]. intros i ph [-> _]%lookup_replicate. cbn. lia.
  - intros i j r' [[=] _]%lookup_replicate.
Qed.

Lemma webhook_at_finished
    (event : WebhookEvent.t) (l : loc) (s : PaymentStatus)
    (ph : webhook_phase) :
  finished (webhook_at clock event l s ph) = true ->
  exists j r, ph = WDone j r.
Proof. destruct ph; try discriminate. eauto. Qed.

End WebhookPoolRuns.

(** C5, as the code has it. N webhook calls with recognised event types
    on one stored [paymentId], their actions interleaved in any order:
    once all have returned, the record's [status] is the mapped target of
    one of the events, its [updatedAt] is a clock reading taken by one of
    the calls, its other fields are as before, and every call has
    returned that record with the target of one of the events. *)
Theorem concurrent_webhooks_final_status
    (clock : nat -> datetime) (entropy : nat -> UUID)
    (w : World) (paymentId : string) (r0 : IntentRecord.t)
    (events : list WebhookEvent.t) (schedule : list nat) :
  intent_at w paymentId = Some r0 ->
  events <> [] ->
  Forall (fun event =>
            WebhookEvent.paymentId event = paymentId /\
            In (WebhookEvent.type event) WebhookEvent.type_literals) events ->
  let c := exec clock entropy schedule
             (mkConfig w (payment_webhook <$> events)) in
  all_finished c = true ->
  exists r,
    intent_at (world c) paymentId = Some r /\
    (exists event, In event events /\
       dict_get status_map (WebhookEvent.type event)
         = Some (IntentRecord.status r)) /\
    (exists j, clock_reads w <= j < clock_reads (world c) /\
               IntentRecord.updatedAt r = clock j) /\
    same_identity r r0 /\
    (forall p, In p (threads c) ->
       exists r' event,
         p = Ret (PaymentIntent_of r') /\ same_identity r' r0 /\
         In event events /\
         dict_get status_map (WebhookEvent.type event)
           = Some (IntentRecord.status r')).
Proof.
  intros Hat Hne Hevents c Hfin.
  apply intent_at_unfold in Hat as (l & Hl & Hr0).
  assert (Hjobs : Forall (fun job =>
            WebhookEvent.paymentId job.1 = paymentId /\
            dict_get status_map (WebhookEvent.type job.1) = Some job.2)
            (webhook_job <$> events)).
  { apply Forall_fmap. eapply Forall_impl; [exact Hevents|].
    intros event [Hpid Hty]. split; [done|]. cbn.
    destruct (dict_get status_map (WebhookEvent.type event)) eqn:Hget; [done|].
    by apply dict_get_status_map_None in Hget. }
  assert (Hjob_event : forall i job,
            (webhook_job <$> events) !! i = Some job ->
            In job.1 events /\
            dict_get status_map (WebhookEvent.type job.1) = Some job.2).
  { intros i job Hjob. split.
    - apply list_lookup_fmap_Some in Hjob as (event & -> & Hev). cbn.
      apply list_elem_of_In. by eapply list_elem_of_lookup_2.
    - by apply (Forall_lookup_1 _ _ _ _ Hjobs Hjob). }
  destruct (webhook_pool_exec clock entropy w paymentId l r0
              (webhook_job <$> events) schedule Hjobs Hl _ _
              (webhook_pool_start clock w l r0 events Hr0)) as [phs Hinv].
  fold c in Hinv.
  destruct Hinv as (HT & Hlen & HS & Hclk & Hread &
                    (r & Hr & Hid & Hst & Hsp) & Hdone).
  assert (Hall : forall i ph, phs !! i = Some ph -> exists j r', ph = WDone j r').
  { intros i ph Hph.
    destruct (lookup_lt_is_Some_2 (webhook_job <$> events) i) as [job Hjob].
    { rewrite <- Hlen. by eapply lookup_lt_Some. }
    unfold all_finished in Hfin. rewrite forallb_forall in Hfin.
    apply (webhook_at_finished clock job.1 l job.2). apply Hfin.
    rewrite HT. apply list_elem_of_In.
    eapply list_elem_of_lookup_2. apply lookup_zip_with_Some. eauto. }
  assert (Hsome : exists ph, phs !! 0 = Some ph).
  { apply lookup_lt_is_Some_2. rewrite Hlen, length_fmap.
    destruct events; [done|cbn; lia]. }
  destruct Hsome as [ph0 Hph0].
  destruct (Hall 0 ph0 Hph0) as (j0 & rd0 & ->).
  exists r. split; [|split; [|split; [|split]]].
  - unfold intent_at. by rewrite HS, Hl.
  - destruct Hst as [(i & job & ph & Hjob & _ & _ & Hs)|[Hlow _]].
    + destruct (Hjob_event i job Hjob) as [Hin Hget].
      exists job.1. split; [done|]. by rewrite Hs.
    + specialize (Hlow 0 _ Hph0). cbn in Hlow. lia.
  - destruct Hsp as [(i & ph & j & Hph & _ & Hj & Hs)|[Hlow _]].
    + exists j. split; [exact (Hread i ph j Hph Hj)|done].
    + specialize (Hlow 0 _ Hph0). cbn in Hlow. lia.
  - done.
  - intros p Hp. rewrite HT in Hp. apply list_elem_of_In in Hp.
    apply list_elem_of_lookup_1 in Hp as [i Hp].
    apply lookup_zip_with_Some in Hp as (job & ph & -> & Hjob & Hph).
    destruct (Hall i ph Hph) as (j & r' & ->).
    destruct (Hdone i j r' Hph) as (Hid' & (i' & job' & Hjob' & Hs') & _).
    destruct (Hjob_event i' job' Hjob') as [Hin Hget].
    exists r', job'.1. cbn. repeat (split; [done|]). by rewrite Hs'.
Qed.

(** ** A pool of creations *)

Section CreatePoolInvariant.
Variable clock : nat -> datetime.
Variable entropy : nat -> UUID.
Variable w0 : World.
Variable payloads : list CreatePaymentIntentRequest.t.
Variable bound : nat.

Hypothesis distinct : draws_distinct entropy bound.
Hypothesis start_keys : keys_drawn entropy w0.

Lemma step_create_effect
    (payload : CreatePaymentIntentRequest.t) (ph : create_phase) (w : World) :
  (forall k j k' l, ph = CStored k j k' l ->
     heap w !! l = Some (create_record clock entropy payload k j k')) ->
  step clock entropy (create_at clock entropy payload ph) w
    = (create_at clock entropy payload (create_next w ph),
       create_effect clock entropy payload ph w).
Proof.
  intros Hheap. destruct ph as [|k|k j|k j k'|k j k' l|k j k' l|k j k' l];
    try reflexivity.
  cbn. by rewrite (Hheap k j k' l eq_refl).
Qed.

Lemma drawn_keys_differ (k1 k2 : nat) :
  k1 < bound -> k2 < bound -> k1 <> k2 ->
  UUID_str (entropy k1) <> UUID_str (entropy k2).
Proof.
  destruct distinct as [Hbound Hinj]. intros H1 H2 Hne Heq.
  apply UUID_str_inj in Heq; [|by apply Hbound ..].
  by apply Hinj in Heq.
Qed.

Lemma create_built_next (w : World) (ph : create_phase) (x : nat * nat * nat * loc) :
  create_built ph = Some x -> create_built (create_next w ph) = Some x.
Proof. destruct ph; cbn; congruence. Qed.

Lemma create_built_draw (ph : create_phase) (k j k' : nat) (l : loc) :
  create_built ph = Some (k, j, k', l) -> create_draw ph = Some k.
Proof. destruct ph; cbn; congruence. Qed.

Lemma create_pool_step (c : Config) (phs : list create_phase) (i : nat) :
  uuid_draws (world (sched_step clock entropy c i)) <= bound ->
  create_pool_inv clock entropy w0 payloads c phs ->
  exists phs',
    create_pool_inv clock entropy w0 payloads (sched_step clock entropy c i) phs'.
Proof.
  intros Hbound
    (HT & Hlen & Hmono & Hdraw & Hown & Hheap & Hkeep & Hput & Hkeys & Hold).
  revert Hbound. unfold sched_step.
  destruct (threads c !! i) as [p|] eqn:Hp.
  2:{ intros _. exists phs. by repeat (split; [done|]). }
  rewrite HT in Hp.
  apply lookup_zip_with_Some in Hp as (payload & ph & -> & Hpayload & Hph).
  rewrite (step_create_effect payload ph (world c)).
  2:{ intros k j k' l ->. by eapply Hheap. }
  cbn [world threads]. intros Hbound.
  exists (<[i := create_next (world c) ph]> phs).
  unfold create_pool_inv. cbn [world threads].
  assert (Hi : i < length phs) by (by eapply lookup_lt_Some).
  split.
  { pose proof (insert_zip_with (create_at clock entropy) payloads phs i
                  payload (create_next (world c) ph)) as Hz.
    rewrite (list_insert_id payloads i payload Hpayload) in Hz.
    rewrite HT. exact Hz. }
  split; [by rewrite length_insert|].
  assert (Hdraws : uuid_draws (world c)
                   <= uuid_draws (create_effect clock entropy payload ph (world c))).
  { destruct ph; cbn; lia. }
  split; [lia|].
  (* the positions of the draws *)
  assert (Hdraw' : forall i1 ph1 k,
            <[i := create_next (world c) ph]> phs !! i1 = Some ph1 ->
            create_draw ph1 = Some k ->
            uuid_draws w0 <= k
            < uuid_draws (create_effect clock entropy payload ph (world c))).
  { intros i1 ph1 k Hph1 Hk.
    apply list_lookup_insert_Some in Hph1 as [(<- & <- & _)|[Hne Hph1]].
    - destruct ph; cbn in Hk |- *; try injection Hk as <-; try lia;
        (eapply Nat.lt_le_trans; [eapply Hdraw; [exact Hph|reflexivity]|lia]) ||
        (split; [eapply Hdraw; [exact Hph|reflexivity]|];
         eapply Nat.lt_le_trans; [eapply Hdraw; [exact Hph|reflexivity]|lia]).
    - specialize (Hdraw i1 ph1 k Hph1 Hk). lia. }
  split; [exact Hdraw'|].
  assert (Hown' : forall i1 i2 ph1 ph2 k,
            <[i := create_next (world c) ph]> phs !! i1 = Some ph1 ->
            <[i := create_next (world c) ph]> phs !! i2 = Some ph2 ->
            create_draw ph1 = Some k -> create_draw ph2 = Some k -> i1 = i2).
  { intros i1 i2 ph1 ph2 k H1 H2 Hk1 Hk2.
    destruct (decide (i1 = i2)) as [|Hne]; [done|exfalso].
    apply list_lookup_insert_Some in H1 as [(<- & <- & _)|[Hne1 H1]];
      apply list_lookup_insert_Some in H2 as [(<- & <- & _)|[Hne2 H2]];
      try done.
    - destruct ph; cbn in Hk1;
        try (apply Hne; eapply (Hown i i2); [exact Hph|exact H2|exact Hk1|exact Hk2]).
      injection Hk1 as <-. specialize (Hdraw i2 ph2 _ H2 Hk2). lia.
    - destruct ph; cbn in Hk2;
        try (apply Hne; eapply (Hown i1 i); [exact H1|exact Hph|exact Hk1|exact Hk2]).
      injection Hk2 as <-. specialize (Hdraw i1 ph1 _ H1 Hk1). lia.
    - apply Hne. by eapply Hown. }
  split; [exact Hown'|].
  (* the heap only grows at its end *)
  assert (Hheap_old : forall l r, heap (world c) !! l = Some r ->
            heap (create_effect clock entropy payload ph (world c)) !! l = Some r).
  { intros l r Hl. destruct ph; cbn; try done. by apply lookup_app_l_Some. }
  split.
  { intros i1 payload1 ph1 k j k' l Hpayload1 Hph1 Hb.
    apply list_lookup_insert_Some in Hph1 as [(<- & <- & _)|[Hne Hph1]].
    - rewrite Hpayload in Hpayload1. injection Hpayload1 as <-.
      destruct ph; cbn in Hb; try discriminate Hb;
        try (apply Hheap_old; eapply Hheap; [exact Hpayload|exact Hph|exact Hb]).
      injection Hb as <- <- <- <-. cbn. by rewrite list_lookup_middle.
    - apply Hheap_old. by eapply Hheap. }
  split; [intros l0 r Hl0; by apply Hheap_old, Hkeep|].
  (* what the store holds *)
  assert (Hstore_cases :
            PAYMENT_STORE (create_effect clock entropy payload ph (world c))
              = PAYMENT_STORE (world c) \/
            exists k j k' l,
              ph = CBuilt k j k' l /\
              PAYMENT_STORE (create_effect clock entropy payload ph (world c))
                = <[UUID_str (entropy k) := l]> (PAYMENT_STORE (world c))).
  { destruct ph; cbn; eauto 10. }
  destruct Hstore_cases as [Hsame|(k & j & k' & l & -> & Hins)].
  - rewrite Hsame. split; [|split; [|exact Hold]].
    + intros i1 ph1 k j k' l Hph1 Hrank Hb.
      apply list_lookup_insert_Some in Hph1 as [(<- & <- & _)|[Hne Hph1]];
        [|by eapply Hput].
      destruct ph; cbn in Hrank, Hb, Hsame; try lia; try discriminate Hb.
      * injection Hb as <- <- <- <-. rewrite <- Hsame. apply lookup_insert_eq.
      * eapply (Hput i); [exact Hph|cbn; lia|exact Hb].
      * eapply (Hput i); [exact Hph|cbn; lia|exact Hb].
    + intros key l Hkey. destruct (Hkeys key l Hkey) as
        [?|(i1 & ph1 & k & j & k' & Hph1 & Hrank & Hb & ->)]; [by left|right].
      destruct (decide (i1 = i)) as [->|Hne].
      * rewrite Hph in Hph1. injection Hph1 as <-.
        exists i, (create_next (world c) ph), k, j, k'.
        rewrite list_lookup_insert_eq by done.
        split; [done|]. split; [|split; [by apply create_built_next|done]].
        destruct ph; cbn in *; lia.
      * exists i1, ph1, k, j, k'. by rewrite list_lookup_insert_ne.
  - rewrite Hins. cbn [create_next].
    assert (Hk : uuid_draws w0 <= k < uuid_draws (world c))
      by (by eapply (Hdraw i)).
    cbn in Hbound.
    split; [|split].
    + intros i1 ph1 k1 j1 k1' l1 Hph1 Hrank Hb.
      apply list_lookup_insert_Some in Hph1 as [(<- & <- & _)|[Hne Hph1]].
      * injection Hb as <- <- <- <-. by rewrite lookup_insert_eq.
      * rewrite lookup_insert_ne; [by eapply Hput|].
        apply drawn_keys_differ; [lia| |].
        -- pose proof (Hdraw i1 ph1 k1 Hph1 (create_built_draw _ _ _ _ _ Hb)). lia.
        -- intros <-. apply Hne.
           eapply (Hown i i1); [exact Hph|exact Hph1|done|].
           by eapply create_built_draw.
    + intros key l1.
      destruct (decide (UUID_str (entropy k) = key)) as [<-|Hne].
      * rewrite lookup_insert_eq. intros [= <-]. right.
        exists i, (CStored k j k' l), k, j, k'.
        rewrite list_lookup_insert_eq by done. cbn. by repeat (split; [lia || done|]).
      * rewrite lookup_insert_ne by done. intros Hkey.
        destruct (Hkeys key l1 Hkey) as
          [?|(i1 & ph1 & k1 & j1 & k1' & Hph1 & Hrank & Hb & ->)]; [by left|right].
        destruct (decide (i1 = i)) as [->|Hne1].
        -- rewrite Hph in Hph1. injection Hph1 as <-. cbn in Hrank. lia.
        -- exists i1, ph1, k1, j1, k1'. by rewrite list_lookup_insert_ne.
    + intros key l1 Hkey. rewrite lookup_insert_ne; [by apply Hold|].
      intros <-. destruct (start_keys (UUID_str (entropy k))) as (k0 & Hk0 & Heq);
        [by rewrite Hkey|].
      revert Heq. apply drawn_keys_differ; lia.
Qed.

End CreatePoolInvariant.

(** ** Runs of a pool of creations *)

Section CreatePoolRuns.
Variable clock : nat -> datetime.
Variable entropy : nat -> UUID.

Lemma step_draws_mono {A} (p : Prog A) (w : World) :
  uuid_draws w <= uuid_draws (step clock entropy p w).2.
Proof.
  destruct p as [a|e|k|k|r k|l s k|l d k|l k|key k|key l k]; cbn; try lia.
  destruct (heap w !! l); cbn; lia.
Qed.

Lemma sched_step_draws_mono (c : Config) (i : nat) :
  uuid_draws (world c) <= uuid_draws (world (sched_step clock entropy c i)).
Proof.
  unfold sched_step. destruct (threads c !! i) as [p|]; [|done].
  pose proof (step_draws_mono p (world c)) as H.
  by destruct (step clock entropy p (world c)).
Qed.

Lemma exec_draws_mono (schedule : list nat) (c : Config) :
  uuid_draws (world c) <= uuid_draws (world (exec clock entropy schedule c)).
Proof.
  unfold exec. revert c. induction schedule as [|i schedule IH]; intros c; cbn.
  - done.
  - etrans; [apply (sched_step_draws_mono c i)|apply IH].
Qed.

Lemma create_pool_exec
    (w0 : World) (payloads : list CreatePaymentIntentRequest.t)
    (schedule : list nat) (c : Config) (phs : list create_phase) :
  draws_distinct entropy (uuid_draws (world (exec clock entropy schedule c))) ->
  keys_drawn entropy w0 ->
  create_pool_inv clock entropy w0 payloads c phs ->
  exists phs',
    create_pool_inv clock entropy w0 payloads
      (exec clock entropy schedule c) phs'.
Proof.
  intros Hdistinct Hkeys. revert c phs Hdistinct.
  induction schedule as [|i schedule IH]; intros c phs Hdistinct Hinv.
  - by exists phs.
  - destruct (create_pool_step clock entropy w0 payloads _ Hdistinct Hkeys
                c phs i) as [phs1 Hinv1]; [|done|].
    + apply (exec_draws_mono schedule (sched_step clock entropy c i)).
    + by eapply IH.
Qed.

Lemma create_pool_start
    (w0 : World) (payloads : list CreatePaymentIntentRequest.t) :
  create_pool_inv clock entropy w0 payloads
    (mkConfig w0 (create_payment_intent <$> payloads))
    (replicate (length payloads) CStart).
Proof.
  unfold create_pool_inv. cbn [world threads].
  split; [|split; [|split; [|split; [|split; [|split; [|split; [|split; [|split]]]]]]]].
  - induction payloads as [|payload ps IH]; cbn; [done|]. by rewrite <- IH.
  - by rewrite length_replicate.
  - done.
  - intros i ph k [-> _]%lookup_replicate. done.
  - intros i1 i2 ph1 ph2 k [-> _]%lookup_replicate. done.
  - intros i payload ph k j k' l _ [-> _]%lookup_replicate. done.
  - done.
  - intros i ph k j k' l [-> _]%lookup_replicate. cbn. lia.
  - intros key l. by left.
  - done.
Qed.

Lemma create_at_finished
    (payload : CreatePaymentIntentRequest.t) (ph : create_phase) :
  finished (create_at clock entropy payload ph) = true ->
  exists k j k' l, ph = CDone k j k' l.
Proof. destruct ph; try discriminate. eauto. Qed.

End CreatePoolRuns.

Section CreatedIds.
Variable clock : nat -> datetime.
Variable entropy : nat -> UUID.

Lemma returned_ids_done
    (w : World) (payloads : list CreatePaymentIntentRequest.t)
    (phs : list create_phase) :
  length phs = length payloads ->
  Forall (fun ph => exists k j k' l, ph = CDone k j k' l) phs ->
  returned_ids (mkConfig w (zip_with (create_at clock entropy) payloads phs))
    = (fun ph => UUID_str (entropy (default 0 (create_draw ph)))) <$> phs.
Proof.
  unfold returned_ids. cbn [threads]. revert phs.
  induction payloads as [|payload ps IH]; intros [|ph phs] Hlen Hdone;
    try discriminate Hlen; [done|].
  apply Forall_cons in Hdone as [(k & j & k' & l & ->) Hdone].
  cbn. f_equal. apply IH; [by injection Hlen|done].
Qed.

Lemma evens_NoDup (n : nat) : NoDup ((fun j => 2 * j) <$> seq 0 n).
Proof.
  apply NoDup_fmap_2; [|apply NoDup_seq]. intros i j Hij. lia.
Qed.

End CreatedIds.



(** ** A call that runs alone is one schedule among others *)

Section Serial.
Variable clock : nat -> datetime.
Variable entropy : nat -> UUID.

Lemma run_step {A} (p : Prog A) (w : World) :
  run clock entropy p w
    = run clock entropy (step clock entropy p w).1 (step clock entropy p w).2.
Proof.
  destruct p as [a|e|k|k|r k|l s k|l d k|l k|key k|key l k]; cbn;
    try reflexivity.
  destruct (heap w !! l) eqn:Hl; cbn; rewrite ?Hl; reflexivity.
Qed.

Lemma sched_step_at
    (w : World) (ts : list (Prog PaymentIntent.t)) (i : nat)
    (p : Prog PaymentIntent.t) :
  i < length ts ->
  sched_step clock entropy (mkConfig w (<[i := p]> ts)) i
    = mkConfig (step clock entropy p w).2
        (<[i := (step clock entropy p w).1]> ts).
Proof.
  intros Hi. unfold sched_step. cbn [threads world].
  rewrite list_lookup_insert_eq by done.
  destruct (step clock entropy p w) as [p' w']. cbn.
  by rewrite list_insert_insert_eq.
Qed.

Lemma run_by_steps
    (p : Prog PaymentIntent.t) (w : World)
    (ts : list (Prog PaymentIntent.t)) (i : nat) :
  i < length ts ->
  (run clock entropy p w).1 <> Dangling ->
  exists n q,
    exec clock entropy (replicate n i) (mkConfig w (<[i := p]> ts))
      = mkConfig (run clock entropy p w).2 (<[i := q]> ts) /\
    match (run clock entropy p w).1 with
    | Returned a => q = Ret a
    | Raised e => q = Raise e
    | Dangling => False
    end.
Proof.
  intros Hi. revert w.
  induction p as [a|e|k IH|k IH|r k IH|l s k IH|l d k IH|l k IH|key k IH|key l k IH];
    intros w Hnd.
  1,2: by (exists 0; eexists; split; [reflexivity|]).
  all: try (rewrite run_step in Hnd |- *; cbn [step fst snd] in Hnd |- *;
            destruct (IH _ _ Hnd) as (n & q & Hexec & Hq) ||
            destruct (IH _ Hnd) as (n & q & Hexec & Hq);
            exists (S n), q; split; [|exact Hq];
            cbn [replicate exec fold_left];
            rewrite (sched_step_at _ _ _ _ Hi); exact Hexec).
  (* the read for the response *)
  cbn [run] in Hnd |- *. destruct (heap w !! l) as [r|] eqn:Hl; [|done].
  destruct (IH r w Hnd) as (n & q & Hexec & Hq).
  exists (S n), q. split; [|exact Hq].
  cbn [replicate exec fold_left]. rewrite (sched_step_at _ _ _ _ Hi).
  cbn [step]. rewrite Hl. exact Hexec.
Qed.

(** Scheduling one thread often enough runs its call to the end. *)
Lemma run_thread_is_a_schedule (c : Config) (i : nat) (p : Prog PaymentIntent.t) :
  threads c !! i = Some p ->
  (run clock entropy p (world c)).1 <> Dangling ->
  exists n, exec clock entropy (replicate n i) c = run_thread clock entropy c i.
Proof.
  intros Hp Hnd. destruct c as [w ts]. cbn [threads world] in *.
  destruct (run_by_steps p w ts i) as (n & q & Hexec & Hq);
    [by eapply lookup_lt_Some|done|].
  exists n. rewrite (list_insert_id ts i p Hp) in Hexec. rewrite Hexec.
  unfold run_thread. cbn [threads world]. rewrite Hp.
  destruct (run clock entropy p w) as [o w']. cbn in Hq |- *.
  by destruct o; subst.
Qed.

End Serial.

(** ** Concrete runs *)

Lemma concurrent_webhooks_final_status_witness :
  exists r,
    intent_at (world (exec demo_clock demo_entropy demo_schedule demo_pool))
      demo_id = Some r /\
    exists event,
      In event [demo_succeeded; demo_failed] /\
      dict_get status_map (WebhookEvent.type event)
        = Some (IntentRecord.status r).
Proof.
  destruct (concurrent_webhooks_final_status demo_clock demo_entropy
              demo_world demo_id demo_record [demo_succeeded; demo_failed]
              demo_schedule) as (r & Hr & Hev & _).
  - vm_compute. reflexivity.
  - discriminate.
  - repeat constructor; cbn; tauto.
  - vm_compute. reflexivity.
  - exists r. split; [exact Hr|exact Hev].
Defined.

(** C5, as stated, fails: two webhook calls on the same [paymentId]
    need not serialize.  Under [demo_schedule] the call applying
    [payment_intent.succeeded] returns an intent whose status is
    [failed], which it does in neither serial order. *)
Lemma concurrent_webhooks_not_serializable :
  ~ serializable demo_clock demo_entropy demo_pool.
Proof.
  intros H.
  destruct (H demo_schedule) as (order & Hperm & Hthreads & _).
  { vm_compute. reflexivity. }
  cbn in Hperm. symmetry in Hperm.
  apply Permutation_length_2_inv in Hperm as [-> | ->];
    vm_compute in Hthreads; discriminate Hthreads.
Qed.

(** Under [demo_schedule_late] the record ends with the status written
    by one call and the timestamp written by the other, an older clock
    reading than the one either serial order leaves. *)
Lemma interleaved_webhooks_mix_writes :
  (IntentRecord.status <$>
     intent_at (world (exec demo_clock demo_entropy demo_schedule_late demo_pool))
       demo_id) = Some FAILED /\
  (IntentRecord.updatedAt <$>
     intent_at (world (exec demo_clock demo_entropy demo_schedule_late demo_pool))
       demo_id) = Some (demo_clock 1) /\
  (IntentRecord.updatedAt <$>
     intent_at (world (serial demo_clock demo_entropy [0; 1] demo_pool))
       demo_id) = Some (demo_clock 2) /\
  (IntentRecord.updatedAt <$>
     intent_at (world (serial demo_clock demo_entropy [1; 0] demo_pool))
       demo_id) = Some (demo_clock 2).
Proof. repeat split; vm_compute; reflexivity. Qed.


(** * Further properties *)

(** ** What any call, alone or among others, does to the dictionaries *)

Section Writes.
Variable clock : nat -> datetime.
Variable entropy : nat -> UUID.
Variable built : IntentRecord.t -> Prop.
Variable written : PaymentStatus -> Prop.
Variable P : IntentRecord.t -> Prop.
Hypothesis kept : kept_by_writes built written P.

Lemma every_record_alter (f : IntentRecord.t -> IntentRecord.t) (l : nat)
    (w : World) (store : gmap string nat) (reads draws : nat) :
  (forall r, P r -> P (f r)) ->
  every_record P w ->
  every_record P (mkWorld store (alter f l (heap w)) reads draws).
Proof.
  intros Hf Hw l' r. cbn. destruct (decide (l = l')) as [<-|Hne].
  - rewrite list_lookup_alter_eq.
    destruct (heap w !! l) as [r0|] eqn:Hr0; [|done].
    intros [= <-]. by eapply Hf, Hw.
  - rewrite list_lookup_alter_ne by done. apply Hw.
Qed.

Lemma step_writes_only {A} (p : Prog A) (w : World) :
  writes_only built written p ->
  every_record P w ->
  writes_only built written (step clock entropy p w).1 /\
  every_record P (step clock entropy p w).2.
Proof.
  destruct kept as (Hbuilt & Hstatus & Hstamp).
  destruct p as [a|e|k|k|r k|l s k|l d k|l k|key k|key l k]; cbn;
    intros Hp Hw; try (split; [done || apply Hp|exact Hw]).
  - destruct Hp as [Hr Hk]. split; [apply Hk|].
    intros l' r' Hl'. cbn in Hl'.
    apply lookup_app_Some in Hl' as [Hl'|[_ Hl']]; [by eapply Hw|].
    apply list_lookup_singleton_Some in Hl' as [_ <-]. by apply Hbuilt.
  - destruct Hp as [Hs Hk]. split; [exact Hk|].
    apply every_record_alter; [|done]. intros r0 Hr0. by apply Hstatus.
  - split; [exact Hp|].
    apply every_record_alter; [|done]. intros r0 Hr0. by apply Hstamp.
  - destruct (heap w !! l) as [r|]; cbn; (split; [done || apply Hp|exact Hw]).
Qed.

Lemma run_writes_only {A} (p : Prog A) (w : World) :
  writes_only built written p ->
  every_record P w ->
  every_record P (run clock entropy p w).2.
Proof.
  revert w.
  induction p as [a|e|k IH|k IH|r k IH|l s k IH|l d k IH|l k IH|key k IH|key l k IH];
    intros w Hp Hw.
  1,2: exact Hw.
  all: try (rewrite run_step;
            destruct (step_writes_only _ w Hp Hw) as [Hp' Hw'];
            cbn [step fst snd] in Hp', Hw' |- *;
            first [by apply IH | by eapply IH]).
  cbn [run]. destruct (heap w !! l) as [r|] eqn:Hl; [|exact Hw].
  apply IH; [apply Hp|exact Hw].
Qed.

Lemma sched_step_writes_only (c : Config) (i : nat) :
  Forall (writes_only built written) (threads c) ->
  every_record P (world c) ->
  Forall (writes_only built written)
    (threads (sched_step clock entropy c i)) /\
  every_record P (world (sched_step clock entropy c i)).
Proof.
  intros Hts Hw. unfold sched_step.
  destruct (threads c !! i) as [p|] eqn:Hp; [|done].
  pose proof (Forall_lookup_1 _ _ _ _ Hts Hp) as Hwp.
  destruct (step_writes_only p (world c) Hwp Hw) as [Hp' Hw'].
  destruct (step clock entropy p (world c)) as [p' w']. cbn in *.
  split; [|exact Hw']. by apply Forall_insert.
Qed.

Lemma exec_writes_only (schedule : list nat) (c : Config) :
  Forall (writes_only built written) (threads c) ->
  every_record P (world c) ->
  every_record P (world (exec clock entropy schedule c)).
Proof.
  unfold exec. revert c.
  induction schedule as [|i schedule IH]; intros c Hts Hw; cbn; [done|].
  destruct (sched_step_writes_only c i Hts Hw) as [Hts' Hw']. by apply IH.
Qed.

End Writes.

Lemma every_record_every_intent (P : IntentRecord.t -> Prop) (w : World) :
  every_record P w -> every_intent P w.
Proof.
  intros Hw key r Hat. apply intent_at_unfold in Hat as (l & _ & Hr).
  by eapply Hw.
Qed.

Lemma handle_writes_only
    (built : IntentRecord.t -> Prop) (written : PaymentStatus -> Prop)
    (req : Request) :
  (forall payload u d u',
     req = CreateIntent payload -> built (new_record payload u d u')) ->
  (forall ty s, dict_get status_map ty = Some s -> written s) ->
  writes_only built written (handle req).
Proof.
  intros Hbuilt Hwritten. destruct req as [payload|paymentId|event];
    cbn [handle].
  - intros u d u'. split; [by apply (Hbuilt payload u d u')|]. done.
  - intros [l|]; cbn; done.
  - unfold payment_webhook.
    destruct (dict_get status_map (WebhookEvent.type event)) as [s|] eqn:Hs.
    + intros [l|]; cbn; [|done]. rewrite falsy_status_Some. cbn.
      split; [by eapply Hwritten|done].
    + intros [l|]; cbn; done.
Qed.

Section Reachable.
Variable clock : nat -> datetime.
Variable entropy : nat -> UUID.

(** A property the writes keep holds of every dictionary, after any
    sequence of calls followed by any pool of calls under any schedule. *)
Lemma every_record_reachable
    (built : IntentRecord.t -> Prop) (written : PaymentStatus -> Prop)
    (P : IntentRecord.t -> Prop)
    (reqs0 reqs : list Request) (schedule : list nat) :
  kept_by_writes built written P ->
  Forall (fun req => writes_only built written (handle req)) reqs0 ->
  Forall (fun req => writes_only built written (handle req)) reqs ->
  every_record P
    (world (exec clock entropy schedule
              (mkConfig (world_after clock entropy reqs0) (handle <$> reqs)))).
Proof.
  intros Hkept H0 H1.
  apply (exec_writes_only clock entropy built written P Hkept); cbn.
  - by apply Forall_fmap.
  - unfold world_after.
    assert (Hgen : forall w, every_record P w ->
              every_record P (serve clock entropy reqs0 w).2).
    { induction reqs0 as [|req rest IH]; intros w Hw; [done|].
      apply Forall_cons in H0 as [Hreq Hrest]. cbn [serve].
      pose proof (run_writes_only clock entropy built written P Hkept
                    (handle req) w Hreq Hw) as Hw1.
      destruct (run clock entropy (handle req) w) as [o w1]. cbn in Hw1.
      specialize (IH Hrest w1 Hw1).
      by destruct (serve clock entropy rest w1). }
    apply Hgen. intros l r. cbn. by rewrite lookup_nil.
Qed.

End Reachable.

(** ** Shape of ids and secrets *)

Lemma grouping_length (h : string) :
  String.length h = 32 ->
  String.length
    (substring 0 8 h +:+ "-" +:+ substring 8 4 h +:+ "-" +:+
     substring 12 4 h +:+ "-" +:+ substring 16 4 h +:+ "-" +:+
     substring 20 12 h) = 36.
Proof.
  intros Hh.
  do 32 (destruct h as [|? h]; [discriminate Hh|]).
  destruct h; [|discriminate Hh]. reflexivity.
Qed.

Lemma UUID_str_length (u : UUID) : String.length (UUID_str u) = 36.
Proof. apply grouping_length, UUID_hex_length. Qed.

Lemma UUID_hex_prefix_length (u : UUID) :
  String.length (substring 0 16 (UUID_hex u)) = 16.
Proof.
  pose proof (UUID_hex_length u) as Hh. revert Hh.
  generalize (UUID_hex u) as h. intros h Hh.
  do 32 (destruct h as [|? h]; [discriminate Hh|]).
  destruct h; [|discriminate Hh]. reflexivity.
Qed.

Lemma new_record_well_shaped
    (payload : CreatePaymentIntentRequest.t) (u : UUID) (d : datetime)
    (u' : UUID) :
  well_shaped (new_record payload u d u').
Proof.
  unfold well_shaped. cbn [new_record IntentRecord.provider
    IntentRecord.currency IntentRecord.id IntentRecord.clientSecret].
  split; [done|]. split.
  { destruct (CreatePaymentIntentRequest.currency payload) as [[|a c]|];
      cbn; discriminate. }
  split; [apply UUID_str_length|].
  exists (substring 0 16 (UUID_hex u')).
  split; [apply UUID_hex_prefix_length|done].
Qed.

(** ** Invariants of the records, under any interleaving *)

(** X1. After any sequence of calls followed by any number of calls whose
    actions interleave in any order, the status of every stored intent
    is [requires_confirmation] or one of the five webhook targets; no
    intent ever has the status [requires_payment_method]. *)
Theorem status_is_one_of_those_written
    (clock : nat -> datetime) (entropy : nat -> UUID)
    (reqs0 reqs : list Request) (schedule : list nat) :
  every_intent
    (fun r => In (IntentRecord.status r) written_statuses /\
              IntentRecord.status r <> REQUIRES_PAYMENT_METHOD)
    (world (exec clock entropy schedule
              (mkConfig (world_after clock entropy reqs0) (handle <$> reqs)))).
Proof.
  apply every_record_every_intent.
  assert (Hin : forall s, In s written_statuses ->
            In s written_statuses /\ s <> REQUIRES_PAYMENT_METHOD).
  { intros s Hs. split; [done|]. intros ->. cbn in Hs.
    repeat (destruct Hs as [Hs|Hs]; [discriminate Hs|]). done. }
  assert (Hreq : forall req,
            writes_only
              (fun r => In (IntentRecord.status r) written_statuses)
              (fun s => In s written_statuses) (handle req)).
  { intros req. apply handle_writes_only.
    - intros payload u d u' _. cbn. tauto.
    - intros ty s Hs%dict_get_status_map_Some. cbn in Hs |- *.
      repeat (destruct Hs as [[= <- <-]|Hs]; [tauto|]). done. }
  apply (every_record_reachable clock entropy
           (fun r => In (IntentRecord.status r) written_statuses)
           (fun s => In s written_statuses)).
  - split; [|split].
    + intros r Hr. by apply Hin.
    + intros r s _ Hs. by apply Hin.
    + intros r d Hr. exact Hr.
  - apply Forall_forall. intros req _. apply Hreq.
  - apply Forall_forall. intros req _. apply Hreq.
Qed.

(** X2. After any sequence of calls followed by any interleaving of
    calls, every stored intent has provider ["mockpay"], a non-empty
    currency, an id of 36 characters, and a client secret that reads
    ["pi_"], the id, ["_secret_"] and 16 more characters. *)
Theorem stored_intents_well_shaped
    (clock : nat -> datetime) (entropy : nat -> UUID)
    (reqs0 reqs : list Request) (schedule : list nat) :
  every_intent well_shaped
    (world (exec clock entropy schedule
              (mkConfig (world_after clock entropy reqs0) (handle <$> reqs)))).
Proof.
  apply every_record_every_intent.
  assert (Hreq : forall req,
            writes_only well_shaped (fun _ => True) (handle req)).
  { intros req. apply handle_writes_only; [|done].
    intros payload u d u' _. apply new_record_well_shaped. }
  apply (every_record_reachable clock entropy well_shaped (fun _ => True)).
  - split; [done|]. split; by intros r ? Hr.
  - apply Forall_forall. intros req _. apply Hreq.
  - apply Forall_forall. intros req _. apply Hreq.
Qed.

(** X3. When every creation, before or in the pool, is given no amount
    or a non-negative one, every stored intent has a non-negative amount
    at every point of any interleaving of the calls. *)
Theorem amount_nonneg_under_interleaving
    (clock : nat -> datetime) (entropy : nat -> UUID)
    (reqs0 reqs : list Request) (schedule : list nat) :
  forallb amount_given_nonneg reqs0 = true ->
  forallb amount_given_nonneg reqs = true ->
  every_intent amount_nonneg
    (world (exec clock entropy schedule
              (mkConfig (world_after clock entropy reqs0) (handle <$> reqs)))).
Proof.
  intros H0 H1. apply every_record_every_intent.
  assert (Hreq : forall req, amount_given_nonneg req = true ->
            writes_only amount_nonneg (fun _ => True) (handle req)).
  { intros req Hok. apply handle_writes_only; [|done].
    intros payload u d u' ->. unfold amount_nonneg. cbn in Hok |- *.
    by destruct (CreatePaymentIntentRequest.amount payload). }
  rewrite forallb_forall in H0, H1.
  apply (every_record_reachable clock entropy amount_nonneg (fun _ => True)).
  - split; [done|]. split; by intros r ? Hr.
  - apply Forall_forall. intros req Hin%list_elem_of_In. by apply Hreq, H0.
  - apply Forall_forall. intros req Hin%list_elem_of_In. by apply Hreq, H1.
Qed.

(** ** Nothing is ever removed *)

Lemma same_identity_refl (r : IntentRecord.t) : same_identity r r.
Proof. by repeat split. Qed.

Lemma same_identity_trans (r1 r2 r3 : IntentRecord.t) :
  same_identity r1 r2 -> same_identity r2 r3 -> same_identity r1 r3.
Proof.
  unfold same_identity. intros (?&?&?&?&?&?&?) (?&?&?&?&?&?&?).
  repeat split; congruence.
Qed.

Lemma grows_to_refl (w : World) : grows_to w w.
Proof.
  split; [done|]. intros l r Hr. exists r. split; [done|apply same_identity_refl].
Qed.

Lemma grows_to_same (w w' : World) :
  PAYMENT_STORE w' = PAYMENT_STORE w -> heap w' = heap w -> grows_to w w'.
Proof.
  intros Hs Hh. split; [by rewrite Hs|]. intros l r Hr. exists r.
  rewrite Hh. split; [done|apply same_identity_refl].
Qed.

Lemma grows_to_trans (w1 w2 w3 : World) :
  grows_to w1 w2 -> grows_to w2 w3 -> grows_to w1 w3.
Proof.
  intros [Hk12 Hh12] [Hk23 Hh23]. split; [auto|].
  intros l r Hr. destruct (Hh12 l r Hr) as (r2 & Hr2 & Hid2).
  destruct (Hh23 l r2 Hr2) as (r3 & Hr3 & Hid3).
  exists r3. split; [done|]. by eapply same_identity_trans.
Qed.

Lemma grows_to_alter (f : IntentRecord.t -> IntentRecord.t) (l : nat)
    (w : World) (reads draws : nat) :
  (forall r, same_identity (f r) r) ->
  grows_to w (mkWorld (PAYMENT_STORE w) (alter f l (heap w)) reads draws).
Proof.
  intros Hf. split; [done|]. intros l' r Hr. cbn.
  destruct (decide (l = l')) as [<-|Hne].
  - rewrite list_lookup_alter_eq, Hr. cbn. eauto.
  - rewrite list_lookup_alter_ne by done. exists r.
    split; [done|apply same_identity_refl].
Qed.

Section Growth.
Variable clock : nat -> datetime.
Variable entropy : nat -> UUID.

Lemma step_grows {A} (p : Prog A) (w : World) :
  grows_to w (step clock entropy p w).2.
Proof.
  destruct p as [a|e|k|k|r k|l s k|l d k|l k|key k|key l k]; cbn;
    try (by apply grows_to_same).
  - split; [done|]. intros l' r' Hr'. cbn. exists r'.
    split; [by apply lookup_app_l_Some|apply same_identity_refl].
  - by apply grows_to_alter.
  - by apply grows_to_alter.
  - destruct (heap w !! l); apply grows_to_refl.
  - split; cbn.
    + intros key' Hkey'. destruct (decide (key = key')) as [<-|Hne].
      * by rewrite lookup_insert_eq.
      * by rewrite lookup_insert_ne.
    + intros l' r' Hr'. exists r'. split; [done|apply same_identity_refl].
Qed.

Lemma run_grows {A} (p : Prog A) (w : World) :
  grows_to w (run clock entropy p w).2.
Proof.
  revert w.
  induction p as [a|e|k IH|k IH|r k IH|l s k IH|l d k IH|l k IH|key k IH|key l k IH];
    intros w.
  1,2: apply grows_to_refl.
  all: try (match goal with
            | |- grows_to ?w (run _ _ ?p ?w).2 =>
                cbn [run]; eapply grows_to_trans;
                [exact (step_grows p w)|apply IH]
            end).
  cbn [run]. destruct (heap w !! l) as [r|]; [apply IH|apply grows_to_refl].
Qed.

Lemma serve_grows (reqs : list Request) (w : World) :
  grows_to w (serve clock entropy reqs w).2.
Proof.
  revert w. induction reqs as [|req reqs IH]; intros w; [apply grows_to_refl|].
  cbn [serve]. pose proof (run_grows (handle req) w) as H1.
  destruct (run clock entropy (handle req) w) as [o w1]. cbn in H1.
  specialize (IH w1). destruct (serve clock entropy reqs w1) as [os w2].
  by eapply grows_to_trans.
Qed.

Lemma exec_grows (schedule : list nat) (c : Config) :
  grows_to (world c) (world (exec clock entropy schedule c)).
Proof.
  unfold exec. revert c.
  induction schedule as [|i schedule IH]; intros c; cbn; [apply grows_to_refl|].
  eapply grows_to_trans; [|apply IH].
  unfold sched_step. destruct (threads c !! i) as [p|]; [|apply grows_to_refl].
  pose proof (step_grows p (world c)) as H.
  by destruct (step clock entropy p (world c)).
Qed.

End Growth.

(** ** What is added to the store, and by which calls *)

Section KeepsStore.
Variable clock : nat -> datetime.
Variable entropy : nat -> UUID.

Lemma step_keeps_store {A} (p : Prog A) (w : World) :
  keeps_store (PAYMENT_STORE w) p ->
  PAYMENT_STORE (step clock entropy p w).2 = PAYMENT_STORE w /\
  length (heap (step clock entropy p w).2) = length (heap w) /\
  keeps_store (PAYMENT_STORE w) (step clock entropy p w).1.
Proof.
  destruct p as [a|e|k|k|r k|l s k|l d k|l k|key k|key l k];
    cbn; intros H; try done.
  - by rewrite length_alter.
  - by rewrite length_alter.
  - destruct (heap w !! l); cbn; auto.
  - destruct H as [Hl H]. by rewrite insert_id.
Qed.

Lemma sched_step_keeps_store (c : Config) (i : nat) :
  Forall (keeps_store (PAYMENT_STORE (world c))) (threads c) ->
  PAYMENT_STORE (world (sched_step clock entropy c i))
    = PAYMENT_STORE (world c) /\
  length (heap (world (sched_step clock entropy c i)))
    = length (heap (world c)) /\
  Forall (keeps_store (PAYMENT_STORE (world c)))
    (threads (sched_step clock entropy c i)).
Proof.
  intros Hts. unfold sched_step.
  destruct (threads c !! i) as [p|] eqn:Hp; [|done].
  pose proof (Forall_lookup_1 _ _ _ _ Hts Hp) as Hkp.
  destruct (step_keeps_store p (world c) Hkp) as (Hstore & Hlen & Hp').
  destruct (step clock entropy p (world c)) as [p' w']. cbn in *.
  split; [done|]. split; [done|]. by apply Forall_insert.
Qed.

Lemma exec_keeps_store (schedule : list nat) (c : Config) :
  Forall (keeps_store (PAYMENT_STORE (world c))) (threads c) ->
  PAYMENT_STORE (world (exec clock entropy schedule c))
    = PAYMENT_STORE (world c) /\
  length (heap (world (exec clock entropy schedule c)))
    = length (heap (world c)).
Proof.
  unfold exec. revert c.
  induction schedule as [|i schedule IH]; intros c Hts; cbn; [done|].
  destruct (sched_step_keeps_store c i Hts) as (Hstore & Hlen & Hts').
  rewrite <- Hstore in Hts'. destruct (IH _ Hts') as [Hstore' Hlen'].
  split; congruence.
Qed.

(** A lookup and a webhook call leave the store as it is: the webhook
    call binds the id to the reference it has just read under it. *)
Lemma handle_keeps_store (store : gmap string nat) (req : Request) :
  is_create req = false -> keeps_store store (handle req).
Proof.
  destruct req as [payload|paymentId|event]; [done| |]; intros _; cbn [handle].
  - cbn. by destruct (store !! paymentId).
  - unfold payment_webhook. cbn.
    destruct (store !! WebhookEvent.paymentId event) as [l|] eqn:Hl; [|done].
    destruct (dict_get status_map (WebhookEvent.type event)) as [s|];
      [|by destruct (falsy_status None)].
    rewrite falsy_status_Some. cbn. done.
Qed.

Lemma serve_heap_length (reqs : list Request) (w : World) :
  length (heap (serve clock entropy reqs w).2)
    = length (heap w) + count_creates reqs.
Proof.
  revert w. induction reqs as [|req reqs IH]; intros w; [cbn; lia|].
  cbn [serve].
  assert (Hrun : length (heap (run clock entropy (handle req) w).2)
                 = length (heap w) + (if is_create req then 1 else 0)).
  { destruct req as [payload|paymentId|event]; cbn [handle is_create].
    - rewrite run_create_payment_intent. cbn. by rewrite length_app.
    - rewrite run_get_payment.
      destruct (PAYMENT_STORE w !! paymentId) as [l|]; [|cbn; lia].
      destruct (heap w !! l); cbn; lia.
    - rewrite run_payment_webhook.
      destruct (PAYMENT_STORE w !! _) as [l|]; [|cbn; lia].
      destruct (dict_get _ _) as [s|]; [|cbn; lia]. cbn zeta.
      destruct (heap w !! l); cbn; rewrite !length_alter; lia. }
  destruct (run clock entropy (handle req) w) as [o w1]. cbn [snd] in Hrun.
  specialize (IH w1). destruct (serve clock entropy reqs w1) as [os w2].
  cbn [snd] in IH |- *. rewrite IH, Hrun. unfold count_creates.
  destruct (is_create req) eqn:Hreq.
  - rewrite filter_cons_True by done. cbn [length]. lia.
  - rewrite filter_cons_False by (by rewrite Hreq). lia.
Qed.

End KeepsStore.

(** X4. Only creations add to the store. From any world, after any
    sequence of calls the keys of [PAYMENT_STORE] are those it had plus
    the ids the creations returned, and there is one more record
    dictionary per creation. Lookups and webhook calls that then run
    interleaved in any order leave [PAYMENT_STORE] and the number of
    dictionaries exactly as they were; throughout, no key is lost and
    every dictionary keeps its id, orderId, amount, currency, provider,
    clientSecret and createdAt. *)
Theorem only_creations_add_to_the_store
    (clock : nat -> datetime) (entropy : nat -> UUID)
    (w : World) (reqs0 reqs : list Request) (schedule : list nat) :
  forallb (fun req => negb (is_create req)) reqs = true ->
  let served := serve clock entropy reqs0 w in
  let c := exec clock entropy schedule
             (mkConfig served.2 (handle <$> reqs)) in
  dom (PAYMENT_STORE served.2)
    = list_to_set (created_ids reqs0 served.1) ∪ dom (PAYMENT_STORE w) /\
  length (heap served.2) = length (heap w) + count_creates reqs0 /\
  PAYMENT_STORE (world c) = PAYMENT_STORE served.2 /\
  length (heap (world c)) = length (heap served.2) /\
  grows_to w (world c).
Proof.
  intros Hreqs served c.
  destruct (serve_created_ids clock entropy reqs0 w) as (Hids & _ & Hdom).
  fold served in Hids, Hdom.
  split; [by rewrite Hids|].
  split; [apply serve_heap_length|].
  assert (Hkeep : PAYMENT_STORE (world c) = PAYMENT_STORE served.2 /\
                  length (heap (world c)) = length (heap served.2)).
  { apply (exec_keeps_store clock entropy schedule
             (mkConfig served.2 (handle <$> reqs))).
    cbn [world threads]. apply Forall_fmap, Forall_forall.
    intros req Hin%list_elem_of_In. cbn. apply handle_keeps_store.
    rewrite forallb_forall in Hreqs. specialize (Hreqs req Hin).
    by destruct (is_create req). }
  destruct Hkeep as [Hstore Hlen]. split; [done|]. split; [done|].
  eapply grows_to_trans; [apply serve_grows|].
  apply (exec_grows clock entropy schedule
           (mkConfig served.2 (handle <$> reqs))).
Qed.

Lemma only_creations_add_to_the_store_witness :
  PAYMENT_STORE
    (world (exec demo_clock demo_entropy [2; 0; 1; 1; 0; 2; 0; 1; 0; 2; 0; 1; 0; 1; 2; 1]
              (mkConfig demo_world
                 (handle <$> [ApplyWebhookEvent demo_succeeded;
                              ApplyWebhookEvent demo_failed;
                              GetIntent demo_id]))))
  = PAYMENT_STORE demo_world.
Proof.
  refine (proj1 (proj2 (proj2
    (only_creations_add_to_the_store demo_clock demo_entropy initial_world
       [CreateIntent demo_payload]
       [ApplyWebhookEvent demo_succeeded; ApplyWebhookEvent demo_failed;
        GetIntent demo_id]
       [2; 0; 1; 1; 0; 2; 0; 1; 0; 2; 0; 1; 0; 1; 2; 1] _)))).
  reflexivity.
Defined.

(** ** Outcomes of calls served one after another *)

(** X5. In any world reached by a sequence of calls, a creation always
    returns an intent, a lookup returns an intent or raises 404
    ["Payment not found"], and a webhook call returns an intent or raises
    that 404 or 400 ["Unsupported event type"]; no call ends otherwise. *)
Theorem calls_return_or_raise_404_400
    (clock : nat -> datetime) (entropy : nat -> UUID)
    (reqs : list Request) (req : Request) :
  let o := (run clock entropy (handle req) (world_after clock entropy reqs)).1 in
  match req with
  | CreateIntent _ => exists intent, o = Returned intent
  | GetIntent _ =>
      (exists intent, o = Returned intent) \/
      o = Raised (mkHTTPException 404 "Payment not found")
  | ApplyWebhookEvent _ =>
      (exists intent, o = Returned intent) \/
      o = Raised (mkHTTPException 404 "Payment not found") \/
      o = Raised (mkHTTPException 400 "Unsupported event type")
  end.
Proof.
  cbn zeta. destruct (wf_world_after clock entropy reqs) as (Hlive & _ & _).
  set (w := world_after clock entropy reqs) in *.
  destruct req as [payload|paymentId|event]; cbn [handle].
  - rewrite run_create_payment_intent. cbn. eauto.
  - rewrite run_get_payment.
    destruct (PAYMENT_STORE w !! paymentId) as [l|] eqn:Hl; [|by right].
    apply Hlive, lookup_lt_is_Some in Hl as [r ->]. left. cbn. eauto.
  - rewrite run_payment_webhook.
    destruct (PAYMENT_STORE w !! _) as [l|] eqn:Hl; [|by right; left].
    destruct (dict_get _ _) as [s|]; [|by right; right]. cbn zeta.
    apply Hlive, lookup_lt_is_Some in Hl as [r ->]. left. cbn. eauto.
Qed.

(** X6. A lookup changes nothing, whatever it ends in; and in any world
    reached by a sequence of calls, the intent it returns is a copy of the
    record stored under the id asked for and carries that id. *)
Theorem get_payment_reads_only
    (clock : nat -> datetime) (entropy : nat -> UUID)
    (reqs : list Request) (w : World) (paymentId : string) :
  (run clock entropy (get_payment paymentId) w).2 = w /\
  forall intent,
    (run clock entropy (get_payment paymentId)
       (world_after clock entropy reqs)).1 = Returned intent ->
    PaymentIntent.id intent = paymentId /\
    exists r,
      intent_at (world_after clock entropy reqs) paymentId = Some r /\
      intent = PaymentIntent_of r.
Proof.
  split.
  - rewrite run_get_payment.
    destruct (PAYMENT_STORE w !! paymentId) as [l|]; [|done].
    by destruct (heap w !! l).
  - destruct (wf_world_after clock entropy reqs) as (_ & _ & Hid).
    set (w1 := world_after clock entropy reqs) in *.
    intros intent. rewrite run_get_payment. unfold intent_at.
    destruct (PAYMENT_STORE w1 !! paymentId) as [l|] eqn:Hl; [|done].
    destruct (heap w1 !! l) as [r|] eqn:Hr; [|done].
    cbn. intros [= <-]. split; [by eapply Hid|]. by exists r.
Qed.

(** X7. A lookup right after a webhook call that returned gives back the
    very intent that call returned, in any world. *)
Theorem get_after_webhook
    (clock : nat -> datetime) (entropy : nat -> UUID)
    (w w' : World) (event : WebhookEvent.t) (intent : PaymentIntent.t) :
  run clock entropy (payment_webhook event) w = (Returned intent, w') ->
  run clock entropy (get_payment (WebhookEvent.paymentId event)) w'
    = (Returned intent, w').
Proof.
  rewrite run_payment_webhook.
  destruct (PAYMENT_STORE w !! _) as [l|] eqn:Hl; [|done].
  destruct (dict_get _ _) as [s|]; [|done]. cbn zeta.
  destruct (heap w !! l) as [r|] eqn:Hr; [|done].
  intros [= <- <-]. rewrite run_get_payment. cbn.
  rewrite lookup_insert_eq, !list_lookup_alter_eq, Hr. done.
Qed.

Lemma get_after_webhook_witness :
  (run demo_clock demo_entropy (get_payment demo_id)
     (run demo_clock demo_entropy (payment_webhook demo_failed) demo_world).2).1
  = Returned (PaymentIntent_of
      (IntentRecord.set_updatedAt (demo_clock 1)
         (IntentRecord.set_status FAILED demo_record))).
Proof.
  assert (Hrun : run demo_clock demo_entropy (payment_webhook demo_failed)
                   demo_world
                 = (Returned (PaymentIntent_of
                      (IntentRecord.set_updatedAt (demo_clock 1)
                         (IntentRecord.set_status FAILED demo_record))),
                    (run demo_clock demo_entropy (payment_webhook demo_failed)
                       demo_world).2)).
  { rewrite (surjective_pairing
               (run demo_clock demo_entropy (payment_webhook demo_failed)
                  demo_world)) at 1.
    by f_equal. }
  pose proof (get_after_webhook demo_clock demo_entropy _ _ _ _ Hrun) as Hget.
  change (WebhookEvent.paymentId demo_failed) with demo_id in Hget.
  by rewrite Hget.
Defined.

Section Successive.
Variable clock : nat -> datetime.
Variable entropy : nat -> UUID.

Lemma run_payment_webhook_stored
    (w : World) (event : WebhookEvent.t) (r : IntentRecord.t)
    (s : PaymentStatus) :
  intent_at w (WebhookEvent.paymentId event) = Some r ->
  dict_get status_map (WebhookEvent.type event) = Some s ->
  let r' := IntentRecord.set_updatedAt (clock (clock_reads w))
              (IntentRecord.set_status s r) in
  (run clock entropy (payment_webhook event) w).1
    = Returned (PaymentIntent_of r') /\
  intent_at (run clock entropy (payment_webhook event) w).2
    (WebhookEvent.paymentId event) = Some r' /\
  clock_reads (run clock entropy (payment_webhook event) w).2
    = S (clock_reads w).
Proof.
  intros Hat Hs r'. apply intent_at_unfold in Hat as (l & Hl & Hr).
  rewrite run_payment_webhook, Hl, Hs. cbn zeta. rewrite Hr. cbn.
  split; [done|]. split; [|done].
  unfold intent_at. cbn. by rewrite lookup_insert_eq, !list_lookup_alter_eq, Hr.
Qed.

Lemma serve_webhooks_last
    (paymentId : string) (events : list WebhookEvent.t)
    (last : WebhookEvent.t) (target : PaymentStatus) :
  Forall (fun event =>
            WebhookEvent.paymentId event = paymentId /\
            In (WebhookEvent.type event) WebhookEvent.type_literals)
         events ->
  WebhookEvent.paymentId last = paymentId ->
  dict_get status_map (WebhookEvent.type last) = Some target ->
  forall (w : World) (r : IntentRecord.t),
    intent_at w paymentId = Some r ->
    let w' := (serve clock entropy
                 (ApplyWebhookEvent <$> (events ++ [last])%list) w).2 in
    exists r',
      intent_at w' paymentId = Some r' /\
      IntentRecord.status r' = target /\
      IntentRecord.updatedAt r' = clock (clock_reads w + length events) /\
      same_identity r' r /\
      clock_reads w' = clock_reads w + S (length events).
Proof.
  intros Hevents Hlast Htarget.
  induction events as [|event events IH]; intros w r Hat; cbn zeta.
  - cbn [app fmap list_fmap serve]. subst paymentId.
    destruct (run_payment_webhook_stored w last r target Hat Htarget)
      as (_ & Hat' & Hreads).
    destruct (run clock entropy (handle (ApplyWebhookEvent last)) w)
      as [o w1] eqn:Hrun.
    cbn [handle] in Hrun. rewrite Hrun in Hat', Hreads. cbn in Hat', Hreads |- *.
    eexists. split; [exact Hat'|]. cbn.
    rewrite Nat.add_0_r. repeat split; lia.
  - apply Forall_cons in Hevents as [[Hpid Hty] Hevents].
    destruct (dict_get status_map (WebhookEvent.type event)) as [s|] eqn:Hs;
      [|by apply dict_get_status_map_None in Hs].
    rewrite <- Hpid in Hat.
    destruct (run_payment_webhook_stored w event r s Hat Hs)
      as (_ & Hat' & Hreads).
    cbn [app fmap list_fmap serve handle].
    destruct (run clock entropy (payment_webhook event) w) as [o w1].
    cbn in Hat', Hreads. rewrite Hpid in Hat'.
    destruct (IH Hevents w1 _ Hat') as (r' & Hr' & Hst & Hup & Hid & Hrd).
    cbn zeta in Hr', Hrd.
    change (list_fmap WebhookEvent.t Request ApplyWebhookEvent
              (events ++ [last])%list)
      with (ApplyWebhookEvent <$> (events ++ [last])%list).
    destruct (serve clock entropy
                (ApplyWebhookEvent <$> (events ++ [last])%list) w1)
      as [os w2].
    cbn in Hr', Hrd |- *. exists r'. split; [done|]. split; [done|].
    split; [rewrite Hup, Hreads; f_equal; lia|].
    split; [|lia].
    eapply same_identity_trans; [exact Hid|]. by repeat split.
Qed.

End Successive.

(** X8. Webhook calls served one after another on a stored intent, every
    event of a recognised type: the status left is the target of the last
    event, [updatedAt] is the clock reading of the last call, the other
    fields are as before, and each call has read the clock once. Applying
    the same event twice therefore leaves the status as after the first
    call and moves [updatedAt] on. *)
Theorem successive_webhooks_last_wins
    (clock : nat -> datetime) (entropy : nat -> UUID)
    (w : World) (paymentId : string) (r : IntentRecord.t)
    (events : list WebhookEvent.t) (last : WebhookEvent.t)
    (target : PaymentStatus) :
  intent_at w paymentId = Some r ->
  Forall (fun event =>
            WebhookEvent.paymentId event = paymentId /\
            In (WebhookEvent.type event) WebhookEvent.type_literals)
         events ->
  WebhookEvent.paymentId last = paymentId ->
  dict_get status_map (WebhookEvent.type last) = Some target ->
  let w' := (serve clock entropy
               (ApplyWebhookEvent <$> (events ++ [last])%list) w).2 in
  exists r',
    intent_at w' paymentId = Some r' /\
    IntentRecord.status r' = target /\
    IntentRecord.updatedAt r' = clock (clock_reads w + length events) /\
    same_identity r' r /\
    clock_reads w' = clock_reads w + S (length events).
Proof.
  intros Hat Hevents Hlast Htarget.
  by apply (serve_webhooks_last clock entropy paymentId events last target).
Qed.

Lemma successive_webhooks_last_wins_witness :
  exists r',
    intent_at
      (serve demo_clock demo_entropy
         (ApplyWebhookEvent <$> ([demo_succeeded; demo_failed] ++ [demo_failed])%list)
         demo_world).2 demo_id = Some r' /\
    IntentRecord.status r' = FAILED /\
    IntentRecord.updatedAt r' = demo_clock (clock_reads demo_world + 2).
Proof.
  destruct (successive_webhooks_last_wins demo_clock demo_entropy demo_world
              demo_id demo_record [demo_succeeded; demo_failed] demo_failed
              FAILED) as (r' & Hat & Hst & Hup & _).
  - vm_compute. reflexivity.
  - repeat constructor; cbn; tauto.
  - reflexivity.
  - reflexivity.
  - exists r'. split; [exact Hat|]. split; [exact Hst|exact Hup].
Defined.

(** ** Creation *)

(** X9. A creation does not look whether its id is taken. When the
    generator draws a value whose rendering is already a key of the
    store, the key is bound to the new record: a lookup of the id returns
    the new intent, the store has no more keys than before, and the
    record stored before under that id is no longer reached from it. *)
Theorem create_rebinds_a_taken_id
    (clock : nat -> datetime) (entropy : nat -> UUID)
    (w : World) (payload : CreatePaymentIntentRequest.t) (l : nat) :
  let id := UUID_str (entropy (uuid_draws w)) in
  PAYMENT_STORE w !! id = Some l ->
  l < length (heap w) ->
  let w' := (run clock entropy (create_payment_intent payload) w).2 in
  run clock entropy (get_payment id) w'
    = (Returned (PaymentIntent_of (created_record clock entropy payload w)), w') /\
  dom (PAYMENT_STORE w') = dom (PAYMENT_STORE w) /\
  PAYMENT_STORE w' !! id <> Some l.
Proof.
  intros id Hl Hlive w'. subst w'. rewrite run_create_payment_intent.
  cbn [snd]. rewrite run_get_payment. cbn. fold id.
  rewrite lookup_insert_eq, list_lookup_middle by done.
  split; [done|]. split.
  - rewrite dom_insert_L. apply elem_of_dom_2 in Hl.
    apply set_eq. intros key. rewrite elem_of_union, elem_of_singleton.
    split; [intros [->|]; done|by right].
  - intros [= Heq]. lia.
Qed.

Lemma create_rebinds_a_taken_id_witness :
  (run demo_clock demo_entropy_stuck
     (get_payment (UUID_str 5%N))
     (run demo_clock demo_entropy_stuck
        (create_payment_intent
           (CreatePaymentIntentRequest.mk "ord-2" UPI (Some 7%float) None))
        (world_after demo_clock demo_entropy_stuck
           [CreateIntent demo_payload])).2).1
  = Returned (PaymentIntent_of
      (created_record demo_clock demo_entropy_stuck
         (CreatePaymentIntentRequest.mk "ord-2" UPI (Some 7%float) None)
         (world_after demo_clock demo_entropy_stuck
            [CreateIntent demo_payload]))).
Proof.
  destruct (create_rebinds_a_taken_id demo_clock demo_entropy_stuck
              (world_after demo_clock demo_entropy_stuck
                 [CreateIntent demo_payload])
              (CreatePaymentIntentRequest.mk "ord-2" UPI (Some 7%float) None)
              0) as (Hget & _ & _).
  - vm_compute. reflexivity.
  - vm_compute. lia.
  - cbn zeta in Hget.
    change (demo_entropy_stuck
              (uuid_draws
                 (world_after demo_clock demo_entropy_stuck
                    [CreateIntent demo_payload]))) with 5%N in Hget.
    by rewrite Hget.
Defined.

(** X10. From any world: a creation, then a webhook call on the id it
    returned with an event of a recognised type, then a lookup of that id.
    All three return; the webhook call and the lookup return the created
    intent with only [status], now the event's target, and [updatedAt],
    now the next clock reading, changed. *)
Theorem create_webhook_get
    (clock : nat -> datetime) (entropy : nat -> UUID)
    (w : World) (payload : CreatePaymentIntentRequest.t)
    (event : WebhookEvent.t) (target : PaymentStatus) :
  let id := UUID_str (entropy (uuid_draws w)) in
  let created := created_record clock entropy payload w in
  let updated :=
    IntentRecord.set_updatedAt (clock (S (clock_reads w)))
      (IntentRecord.set_status target created) in
  WebhookEvent.paymentId event = id ->
  dict_get status_map (WebhookEvent.type event) = Some target ->
  (serve clock entropy
     [CreateIntent payload; ApplyWebhookEvent event; GetIntent id] w).1
  = [ Returned (PaymentIntent_of created);
      Returned (PaymentIntent_of updated);
      Returned (PaymentIntent_of updated) ].
Proof.
  intros id created updated Hid Htarget.
  cbn [serve handle]. rewrite run_create_payment_intent.
  cbv beta iota zeta. rewrite run_payment_webhook.
  cbn [PAYMENT_STORE heap clock_reads uuid_draws]. fold id. fold created.
  rewrite Hid, lookup_insert_eq, Htarget, list_lookup_middle by done.
  cbv beta iota zeta. rewrite run_get_payment.
  cbn [PAYMENT_STORE heap clock_reads uuid_draws].
  rewrite insert_insert_eq, lookup_insert_eq.
  rewrite !list_lookup_alter_eq, list_lookup_middle by done.
  reflexivity.
Qed.

Lemma create_webhook_get_witness :
  (serve demo_clock demo_entropy
     [CreateIntent demo_payload; ApplyWebhookEvent demo_succeeded;
      GetIntent demo_id] initial_world).1
  = [ Returned (PaymentIntent_of demo_record);
      Returned (PaymentIntent_of
        (IntentRecord.set_updatedAt (demo_clock 1)
           (IntentRecord.set_status SUCCEEDED demo_record)));
      Returned (PaymentIntent_of
        (IntentRecord.set_updatedAt (demo_clock 1)
           (IntentRecord.set_status SUCCEEDED demo_record))) ].
Proof.
  apply (create_webhook_get demo_clock demo_entropy initial_world demo_payload
           demo_succeeded SUCCEEDED); reflexivity.
Defined.

(** X11. The payment method given at creation is not used: two creation
    requests that differ only in their method end in the same outcome and
    the same world. *)
Theorem create_ignores_method
    (clock : nat -> datetime) (entropy : nat -> UUID) (w : World)
    (orderId : string) (method method' : PaymentMethod)
    (amount : option float) (currency : option string) :
  run clock entropy
    (create_payment_intent
       (CreatePaymentIntentRequest.mk orderId method amount currency)) w
  = run clock entropy
      (create_payment_intent
         (CreatePaymentIntentRequest.mk orderId method' amount currency)) w.
Proof. by rewrite !run_create_payment_intent. Qed.

Lemma serve_app
    (clock : nat -> datetime) (entropy : nat -> UUID)
    (reqs1 reqs2 : list Request) (w : World) :
  (serve clock entropy (reqs1 ++ reqs2)%list w).2
    = (serve clock entropy reqs2 (serve clock entropy reqs1 w).2).2.
Proof.
  revert w. induction reqs1 as [|req reqs1 IH]; intros w; [done|].
  cbn [app serve]. destruct (run clock entropy (handle req) w) as [o w1].
  specialize (IH w1).
  destruct (serve clock entropy (reqs1 ++ reqs2)%list w1) as [os w2].
  destruct (serve clock entropy reqs1 w1) as [os1 w3]. cbn in IH |- *.
  rewrite IH. by destruct (serve clock entropy reqs2 w3).
Qed.

(** X12. No call deletes an intent: an id that is a key of the store
    after some sequence of calls is still found after any further
    sequence of calls, and the lookup returns an intent carrying that
    id (never 404). *)
Theorem stored_id_stays_retrievable
    (clock : nat -> datetime) (entropy : nat -> UUID)
    (reqs1 reqs2 : list Request) (paymentId : string) :
  is_Some (PAYMENT_STORE (world_after clock entropy reqs1) !! paymentId) ->
  exists intent,
    (run clock entropy (get_payment paymentId)
       (world_after clock entropy (reqs1 ++ reqs2)%list)).1 = Returned intent /\
    PaymentIntent.id intent = paymentId.
Proof.
  intros Hkey.
  destruct (wf_world_after clock entropy (reqs1 ++ reqs2)%list)
    as (Hlive & _ & Hid).
  assert (Hkey' : is_Some (PAYMENT_STORE
                    (world_after clock entropy (reqs1 ++ reqs2)%list)
                    !! paymentId)).
  { unfold world_after. rewrite serve_app.
    by apply (serve_grows clock entropy reqs2). }
  destruct Hkey' as [l Hl].
  destruct (lookup_lt_is_Some_2 _ l (Hlive _ _ Hl)) as [r Hr].
  exists (PaymentIntent_of r). rewrite run_get_payment, Hl, Hr.
  split; [done|]. cbn. by eapply Hid.
Qed.

Lemma stored_id_stays_retrievable_witness :
  exists intent,
    (run demo_clock demo_entropy (get_payment demo_id)
       (world_after demo_clock demo_entropy
          ([CreateIntent demo_payload]
           ++ [ApplyWebhookEvent demo_failed; CreateIntent demo_payload])%list)).1
    = Returned intent /\
    PaymentIntent.id intent = demo_id.
Proof.
  apply (stored_id_stays_retrievable demo_clock demo_entropy
           [CreateIntent demo_payload]
           [ApplyWebhookEvent demo_failed; CreateIntent demo_payload] demo_id).
  vm_compute. eauto.
Defined.

Lemma amount_nonneg_under_interleaving_witness :
  every_intent amount_nonneg
    (world (exec demo_clock demo_entropy [1; 0; 0; 1; 1; 0; 2; 1; 1; 0; 1; 0; 0]
              (mkConfig
                 (world_after demo_clock demo_entropy [CreateIntent demo_payload])
                 (handle <$>
                    [ CreateIntent
                        (CreatePaymentIntentRequest.mk "ord-2" WALLET
                           (Some 0%float) (Some ""));
                      ApplyWebhookEvent demo_succeeded;
                      GetIntent demo_id ])))).
Proof.
  apply (amount_nonneg_under_interleaving demo_clock demo_entropy
           [CreateIntent demo_payload]); reflexivity.
Defined.

(** ** Webhook calls in flight together: timestamps and clock readings *)

(** X13. With a clock that never runs backwards, in a world reached by
    a sequence of calls, webhook calls with recognised event types on one
    stored intent keep [createdAt <= updatedAt] on its record at every
    point of every interleaving, and never change [createdAt]. *)
Theorem timestamps_ordered_under_interleaved_webhooks
    (clock : nat -> datetime) (entropy : nat -> UUID)
    (reqs : list Request) (paymentId : string) (r0 : IntentRecord.t)
    (events : list WebhookEvent.t) (schedule : list nat) :
  clock_monotone clock ->
  intent_at (world_after clock entropy reqs) paymentId = Some r0 ->
  Forall (fun event =>
            WebhookEvent.paymentId event = paymentId /\
            In (WebhookEvent.type event) WebhookEvent.type_literals) events ->
  let c := exec clock entropy schedule
             (mkConfig (world_after clock entropy reqs)
                (payment_webhook <$> events)) in
  exists r,
    intent_at (world c) paymentId = Some r /\
    IntentRecord.createdAt r = IntentRecord.createdAt r0 /\
    (IntentRecord.createdAt r <= IntentRecord.updatedAt r)%Z.
Proof.
  intros Hmono Hat Hevents c.
  pose proof (heap_times_ordered_after clock entropy reqs Hmono) as Htimes.
  set (w := world_after clock entropy reqs) in *.
  apply intent_at_unfold in Hat as (l & Hl & Hr0).
  destruct (Htimes l r0 Hr0) as (Hle0 & j0 & Hj0 & Hc0).
  assert (Hjobs : Forall (fun job =>
            WebhookEvent.paymentId job.1 = paymentId /\
            dict_get status_map (WebhookEvent.type job.1) = Some job.2)
            (webhook_job <$> events)).
  { apply Forall_fmap. eapply Forall_impl; [exact Hevents|].
    intros event [Hpid Hty]. split; [done|]. cbn.
    destruct (dict_get status_map (WebhookEvent.type event)) eqn:Hget; [done|].
    by apply dict_get_status_map_None in Hget. }
  destruct (webhook_pool_exec clock entropy w paymentId l r0
              (webhook_job <$> events) schedule Hjobs Hl _ _
              (webhook_pool_start clock w l r0 events Hr0)) as [phs Hinv].
  fold c in Hinv.
  destruct Hinv as (_ & _ & HS & _ & Hread & (r & Hr & Hid & _ & Hsp) & _).
  exists r. split; [unfold intent_at; by rewrite HS, Hl|].
  destruct Hid as (_ & _ & _ & _ & _ & _ & Hcreated).
  split; [exact Hcreated|]. rewrite Hcreated.
  destruct Hsp as [(i & ph & j & Hph & _ & Hj & ->)|[_ ->]]; [|exact Hle0].
  rewrite Hc0. apply Hmono. specialize (Hread i ph j Hph Hj). lia.
Qed.

Lemma timestamps_ordered_under_interleaved_webhooks_witness :
  exists r,
    intent_at
      (world (exec demo_clock demo_entropy demo_schedule_late demo_pool))
      demo_id = Some r /\
    IntentRecord.createdAt r = IntentRecord.createdAt demo_record /\
    (IntentRecord.createdAt r <= IntentRecord.updatedAt r)%Z.
Proof.
  apply (timestamps_ordered_under_interleaved_webhooks demo_clock demo_entropy
           [CreateIntent demo_payload] demo_id demo_record
           [demo_succeeded; demo_failed] demo_schedule_late).
  - intros i j Hij. unfold demo_clock. lia.
  - vm_compute. reflexivity.
  - repeat constructor; cbn; tauto.
Defined.

Section ClockReadings.
Variable clock : nat -> datetime.
Variable entropy : nat -> UUID.

Lemma readings_taken_insert
    (phs : list webhook_phase) (i : nat) (ph ph' : webhook_phase) :
  phs !! i = Some ph ->
  readings_taken (<[i := ph']> phs)
    + (if decide (3 <= webhook_rank ph) then 1 else 0)
  = readings_taken phs
    + (if decide (3 <= webhook_rank ph') then 1 else 0).
Proof.
  unfold readings_taken. revert i.
  induction phs as [|ph0 phs IH]; intros [|i] Hph; try discriminate Hph.
  - injection Hph as ->. cbn [insert list_insert].
    rewrite !filter_cons.
    destruct (decide (3 <= webhook_rank ph)),
             (decide (3 <= webhook_rank ph')); cbn [length]; lia.
  - cbn in Hph. specialize (IH i Hph). cbn [insert list_insert].
    rewrite !filter_cons.
    destruct (decide (3 <= webhook_rank ph0)); cbn [length Nat.add];
      [by f_equal|exact IH].
Qed.

Lemma readings_taken_done (phs : list webhook_phase) :
  Forall (fun ph => exists j r, ph = WDone j r) phs ->
  readings_taken phs = length phs.
Proof.
  unfold readings_taken. induction 1 as [|ph phs (j & r & ->) _ IH]; [done|].
  rewrite filter_cons_True by (cbn; lia). cbn. by rewrite IH.
Qed.

Lemma webhook_pool_count_step
    (w0 : World) (paymentId : string) (l : nat)
    (jobs : list (WebhookEvent.t * PaymentStatus))
    (c : Config) (phs : list webhook_phase) (i : nat) :
  Forall (fun job =>
            WebhookEvent.paymentId job.1 = paymentId /\
            dict_get status_map (WebhookEvent.type job.1) = Some job.2) jobs ->
  PAYMENT_STORE w0 !! paymentId = Some l ->
  webhook_pool_count clock w0 l jobs c phs ->
  exists phs',
    webhook_pool_count clock w0 l jobs (sched_step clock entropy c i) phs'.
Proof.
  intros Hjobs Hstored (HT & Hlen & HS & Hlive & Hcount).
  unfold sched_step. destruct (threads c !! i) as [p|] eqn:Hp.
  2:{ by exists phs. }
  rewrite HT in Hp.
  apply lookup_zip_with_Some in Hp as (job & ph & -> & Hjob & Hph).
  pose proof (Forall_lookup_1 _ _ _ _ Hjobs Hjob) as [Hpid Hmap].
  rewrite (step_webhook_effect clock entropy job.1 l job.2 ph (world c));
    [|by rewrite Hpid, HS|done|by apply lookup_lt_is_Some].
  exists (<[i := webhook_next (world c) l ph]> phs).
  unfold webhook_pool_count. cbn [world threads].
  pose proof (readings_taken_insert phs i ph
                (webhook_next (world c) l ph) Hph) as Hins.
  split.
  { pose proof (insert_zip_with
                  (fun job ph => webhook_at clock job.1 l job.2 ph) jobs phs i
                  job (webhook_next (world c) l ph)) as Hz.
    rewrite (list_insert_id jobs i job Hjob) in Hz. rewrite HT. exact Hz. }
  split; [by rewrite length_insert|].
  destruct ph as [| | |j|j|j|j rd]; cbn [webhook_next webhook_effect] in *;
    cbn [PAYMENT_STORE heap clock_reads];
    try (destruct (heap (world c) !! l) eqn:Hheap);
    repeat case_decide; cbn in *; try lia;
    rewrite ?length_alter, ?Hpid, ?insert_id by (by rewrite HS);
    (split; [done|]); (split; [done|]); lia.
Qed.

Lemma webhook_pool_count_exec
    (w0 : World) (paymentId : string) (l : nat)
    (jobs : list (WebhookEvent.t * PaymentStatus)) (schedule : list nat) :
  Forall (fun job =>
            WebhookEvent.paymentId job.1 = paymentId /\
            dict_get status_map (WebhookEvent.type job.1) = Some job.2) jobs ->
  PAYMENT_STORE w0 !! paymentId = Some l ->
  forall c phs,
    webhook_pool_count clock w0 l jobs c phs ->
    exists phs',
      webhook_pool_count clock w0 l jobs (exec clock entropy schedule c) phs'.
Proof.
  intros Hjobs Hstored. unfold exec.
  induction schedule as [|i schedule IH]; intros c phs Hinv; cbn.
  - by exists phs.
  - destruct (webhook_pool_count_step w0 paymentId l jobs c phs i
                Hjobs Hstored Hinv) as [phs1 Hinv1].
    by eapply IH.
Qed.

End ClockReadings.

(** X14. N webhook calls with recognised event types on one stored
    intent, interleaved in any order: once all have finished, the clock
    has been read exactly N times, once by each call. *)
Theorem interleaved_webhooks_read_clock_once_each
    (clock : nat -> datetime) (entropy : nat -> UUID)
    (w : World) (paymentId : string) (r0 : IntentRecord.t)
    (events : list WebhookEvent.t) (schedule : list nat) :
  intent_at w paymentId = Some r0 ->
  Forall (fun event =>
            WebhookEvent.paymentId event = paymentId /\
            In (WebhookEvent.type event) WebhookEvent.type_literals) events ->
  let c := exec clock entropy schedule
             (mkConfig w (payment_webhook <$> events)) in
  all_finished c = true ->
  clock_reads (world c) = clock_reads w + length events.
Proof.
  intros Hat Hevents c Hfin.
  apply intent_at_unfold in Hat as (l & Hl & Hr0).
  assert (Hjobs : Forall (fun job =>
            WebhookEvent.paymentId job.1 = paymentId /\
            dict_get status_map (WebhookEvent.type job.1) = Some job.2)
            (webhook_job <$> events)).
  { apply Forall_fmap. eapply Forall_impl; [exact Hevents|].
    intros event [Hpid Hty]. split; [done|]. cbn.
    destruct (dict_get status_map (WebhookEvent.type event)) eqn:Hget; [done|].
    by apply dict_get_status_map_None in Hget. }
  assert (Hstart : webhook_pool_count clock w l (webhook_job <$> events)
                     (mkConfig w (payment_webhook <$> events))
                     (replicate (length events) WStart)).
  { unfold webhook_pool_count. cbn [world threads].
    split; [|split; [|split; [|split]]].
    - clear. induction events as [|event events IH]; cbn; [done|].
      by rewrite <- IH.
    - by rewrite length_replicate, length_fmap.
    - done.
    - by eapply lookup_lt_Some.
    - unfold readings_taken.
      assert (Hnone : filter (fun ph => 3 <= webhook_rank ph)
                        (replicate (length events) WStart) = []).
      { induction (length events) as [|n IH]; [done|]. cbn [replicate].
        rewrite filter_cons_False by (cbn; lia). exact IH. }
      rewrite Hnone. cbn. lia. }
  destruct (webhook_pool_count_exec clock entropy w paymentId l
              (webhook_job <$> events) schedule Hjobs Hl _ _ Hstart)
    as [phs Hinv].
  fold c in Hinv. destruct Hinv as (HT & Hlen & _ & _ & Hcount).
  rewrite Hcount, readings_taken_done; [by rewrite Hlen, length_fmap|].
  apply Forall_lookup_2. intros i ph Hph.
  destruct (lookup_lt_is_Some_2 (webhook_job <$> events) i) as [job Hjob].
  { rewrite <- Hlen. by eapply lookup_lt_Some. }
  unfold all_finished in Hfin. rewrite forallb_forall in Hfin.
  apply (webhook_at_finished clock job.1 l job.2). apply Hfin.
  rewrite HT. apply list_elem_of_In.
  eapply list_elem_of_lookup_2. apply lookup_zip_with_Some. eauto.
Qed.

Lemma interleaved_webhooks_read_clock_once_each_witness :
  clock_reads (world (exec demo_clock demo_entropy demo_schedule demo_pool))
  = clock_reads demo_world + 2.
Proof.
  apply (interleaved_webhooks_read_clock_once_each demo_clock demo_entropy
           demo_world demo_id demo_record [demo_succeeded; demo_failed]
           demo_schedule).
  - vm_compute. reflexivity.
  - repeat constructor; cbn; tauto.
  - vm_compute. reflexivity.
Defined.
